(** * EcoHarvest crop-yield app (src/app.py): a shallow embedding

    The Streamlit script is modelled as a sequence of script runs over a
    process state (the file system entry [crop_yield_model.pkl] and the
    [st.cache_resource] slot of [get_model_data]).  Python exceptions are
    the constructors of [exn]; fallible code returns [res].

    Sheet values are integers ([Z]), kept in an int column or, where
    pandas reads the column as float64, as integral floats, which print
    differently ("28.0"); the process state also holds the elements that
    [st.cache_resource] replays on a cache hit.  The floating-point
    regression itself ([LinearRegression.fit] / [.predict]) is left
    abstract as Section variables, so every theorem holds for any fitting
    procedure (or for any that depends on its input's values only, where
    stated). *)

From Stdlib Require Import ZArith Lia.
From Stdlib Require Import Sorting.Sorted Ascii.
From stdpp Require Import base list strings pretty.

Open Scope Z_scope.

(** ** Python exceptions and results *)

Inductive exn :=
  | KeyError            (* pandas column selection *)
  | ValueError          (* LabelEncoder.transform on an unseen label *)
  | NotFittedError      (* LabelEncoder.transform before fit *)
  | DownloadError       (* kagglehub import / download *)
  | FileNotFoundError   (* pd.read_excel on a missing path *)
  | ReadError           (* pd.read_excel on a malformed sheet *)
  | FitError            (* LinearRegression.fit *)
  | PredictError        (* LinearRegression.predict *)
  | OSError             (* open(filename, "wb") *)
  | PicklingError       (* pickle.dump into the opened file *)
  | UnpicklingError.    (* pickle.load of a truncated file *)

Inductive res (A : Type) :=
  | Ok (a : A)
  | Err (e : exn).
Arguments Ok {A} a.
Arguments Err {A} e.

Definition res_bind {A B} (r : res A) (k : A -> res B) : res B :=
  match r with Ok a => k a | Err e => Err e end.

Notation "'let?' x := r 'in' k" := (res_bind r (fun x => k))
  (at level 200, x name, r at level 100, k at level 200).

(** ** LabelEncoder

    [classes_] is [None] before [fit]; after [fit] it holds the sorted
    unique labels (numpy's [np.unique]). *)

Record LabelEncoder := { classes_ : option (list string) }.

Definition LabelEncoder_new : LabelEncoder := {| classes_ := None |}.

(** Sorted insertion without duplicates (the [np.unique] of [fit]). *)
Fixpoint insert_unique (s : string) (l : list string) : list string :=
  match l with
  | [] => [s]
  | x :: l' =>
      match String.compare s x with
      | Lt => s :: l
      | Eq => l
      | Gt => x :: insert_unique s l'
      end
  end.

Definition np_unique (l : list string) : list string :=
  fold_right insert_unique [] l.

Fixpoint index_of (s : string) (l : list string) : option nat :=
  match l with
  | [] => None
  | x :: l' => if String.eqb s x then Some 0%nat
               else option_map S (index_of s l')
  end.

(** [LE.transform(ys)]: raises if not fitted, or if a label is unseen. *)
Definition le_transform (le : LabelEncoder) (ys : list string) : res (list Z) :=
  match classes_ le with
  | None => Err NotFittedError
  | Some cls =>
      fold_right (fun y acc =>
        match index_of y cls with
        | Some i => let? c := acc in Ok (Z.of_nat i :: c)
        | None => Err ValueError
        end) (Ok []) ys
  end.

(** [LE.fit_transform(ys)]: the fitted encoder and the codes. *)
Definition le_fit_transform (ys : list string) : LabelEncoder * list Z :=
  let cls := np_unique ys in
  ({| classes_ := Some cls |},
   map (fun y => match index_of y cls with
                 | Some i => Z.of_nat i | None => 0 end) ys).

(** ** Inference (section 6 of app.py) *)

(** One prediction request, as read from the input form. *)
Record Request := {
  rain : Z; temp_input : Z; fertilizer : Z;
  nitrogen : Z; phosphorus : Z; potassium : Z }.

(** Python's [str(int(temp_input))] on an integer. *)
Definition py_str_int (z : Z) : string := pretty z.

(** The [final_temp] block, lines 246-255.  [temp_encoder] is
    [data.get("encoder_temp")]: [None] when the key is absent.  A
    [LabelEncoder] object is always truthy (it defines neither
    [__bool__] nor [__len__]), so [if temp_encoder:] takes the first
    branch for any encoder, fitted or not; the bare [except:] turns any
    exception of [transform] into code 0. *)
Definition final_temp (temp_encoder : option LabelEncoder) (t : Z) : Z :=
  match temp_encoder with
  | Some le =>
      match le_transform le [py_str_int t] with
      | Ok (c :: _) => c
      | Ok [] => 0
      | Err _ => 0
      end
  | None => t
  end.

(** [inputs = np.array([[rain, fertilizer, final_temp, nitrogen,
    phosphorus, potassium]])], line 259. *)
Definition inputs (temp_encoder : option LabelEncoder) (r : Request) : list Z :=
  [rain r; fertilizer r; final_temp temp_encoder (temp_input r);
   nitrogen r; phosphorus r; potassium r].

(** ** Spreadsheet data (pandas) *)

(** [CNum z]: an integer in an int64 (or object) column; [CFloat z]: the
    integral value [z] in a float64 column, which is what pandas makes of
    an integer column holding a missing value.  Integers are taken within
    +/-2^53, where the int-to-float conversion is exact. *)
Inductive cell :=
  | CNum (z : Z)
  | CFloat (z : Z)
  | CStr (s : string).

(** A row-oriented DataFrame; [None] is a missing value (NaN). *)
Record DataFrame := {
  df_columns : list string;
  df_rows : list (list (option cell)) }.

Definition cell_of (cols : list string) (r : list (option cell)) (c : string)
  : option cell :=
  match index_of c cols with
  | Some i => match r !! i with Some x => x | None => None end
  | None => None
  end.

(** [c in cy.columns]. *)
Definition has_column (cols : list string) (c : string) : bool :=
  existsb (String.eqb c) cols.

Definition row_complete (r : list (option cell)) : bool :=
  forallb (fun x => match x with Some _ => true | None => false end) r.

(** [cy.dropna()]: drops every row with a missing value in any column. *)
Definition dropna (cy : DataFrame) : DataFrame :=
  {| df_columns := df_columns cy;
     df_rows := filter (fun r => row_complete r = true) (df_rows cy) |}.

(** [.astype(str)] on one cell: an int prints in decimal, an integral
    float (below 10^16 in magnitude, as for the integers above) prints
    with a trailing ".0", NaN prints as "nan". *)
Definition cell_str (x : option cell) : string :=
  match x with
  | Some (CNum z) => pretty z
  | Some (CFloat z) => String.append (pretty z) ".0"
  | Some (CStr s) => s
  | None => "nan"
  end.

Definition temp_col : string := "Temperatue".

(** Step 3 of [get_model_data], lines 161-165. *)
Definition encode_temperature (LE : LabelEncoder) (cy : DataFrame)
  : LabelEncoder * DataFrame :=
  if has_column (df_columns cy) temp_col then
    match index_of temp_col (df_columns cy) with
    | Some i =>
        let labels := map (fun r => cell_str (cell_of (df_columns cy) r temp_col))
                          (df_rows cy) in
        let '(LE', codes) := le_fit_transform labels in
        (LE', {| df_columns := df_columns cy;
                 df_rows := zip_with (fun r c => <[i := Some (CNum c)]> r)
                                     (df_rows cy) codes |})
    | None => (LE, cy)
    end
  else (LE, cy).

(** [cy[[c1, ..., cn]]]: [KeyError] if one column is missing. *)
Definition select (cy : DataFrame) (cs : list string)
  : res (list (list (option cell))) :=
  if forallb (has_column (df_columns cy)) cs
  then Ok (map (fun r => map (cell_of (df_columns cy) r) cs) (df_rows cy))
  else Err KeyError.

(** [cy[c]]. *)
Definition series (cy : DataFrame) (c : string) : res (list (option cell)) :=
  if has_column (df_columns cy) c
  then Ok (map (fun r => cell_of (df_columns cy) r c) (df_rows cy))
  else Err KeyError.

(** The training columns of line 169, in the order written there. *)
Definition feature_cols : list string :=
  ["Rain Fall (mm)"; "Fertilizer"; "Temperatue";
   "Nitrogen (N)"; "Phosphorus (P)"; "Potassium (K)"].

Definition target_col : string := "Yeild (Q/acre)".

(** ** Reading the sheet: pandas' column types *)

(** The cell of column [j] in a row (a short row reads as missing). *)
Definition col_at (r : list (option cell)) (j : nat) : option cell :=
  match r !! j with Some x => x | None => None end.

Definition is_missing (x : option cell) : bool :=
  match x with None => true | Some _ => false end.

Definition is_float_cell (x : option cell) : bool :=
  match x with Some (CFloat _) => true | _ => false end.

Definition is_numeric_or_missing (x : option cell) : bool :=
  match x with Some (CStr _) => false | _ => true end.

(** Column [j] is read as float64: all its values are numbers or missing,
    and one is missing or a float. *)
Definition float_column (rows : list (list (option cell))) (j : nat) : bool :=
  (existsb (fun r => is_missing (col_at r j)) rows ||
   existsb (fun r => is_float_cell (col_at r j)) rows) &&
  forallb (fun r => is_numeric_or_missing (col_at r j)) rows.

Definition promote_cell (x : option cell) : option cell :=
  match x with Some (CNum z) => Some (CFloat z) | _ => x end.

(** The cells of a row from column [j] on, with the float columns [P]
    converted. *)
Fixpoint promote_row (P : nat -> bool) (j : nat) (r : list (option cell))
  : list (option cell) :=
  match r with
  | [] => []
  | x :: r' => (if P j then promote_cell x else x) :: promote_row P (S j) r'
  end.

(** [pd.read_excel]: the sheet as the Excel reader yields it (integral
    numbers as ints), with pandas' dtype inference applied column by
    column. *)
Definition read_frame (sh : DataFrame) : DataFrame :=
  {| df_columns := df_columns sh;
     df_rows := map (promote_row (float_column (df_rows sh)) 0) (df_rows sh) |}.

(** ** The dataset directory *)

(** A downloaded directory: its file names in [os.listdir] order, each
    with its sheet as the Excel reader yields it (or the reader's
    error). *)
Definition Directory := list (string * res DataFrame).

Definition default_name : string := "crop yield data sheet.xlsx".

(** Python's [s.endswith(suf)]. *)
Definition ends_with (suf s : string) : bool :=
  (String.length suf <=? String.length s)%nat &&
  String.eqb (String.substring (String.length s - String.length suf)
                               (String.length suf) s) suf.

Definition file_exists (dir : Directory) (name : string) : bool :=
  existsb (fun p => String.eqb p.1 name) dir.

(** Lines 147-154: the exact name, else the first ".xlsx" file. *)
Definition locate (dir : Directory) : string :=
  if file_exists dir default_name then default_name
  else match List.find (fun p => ends_with ".xlsx" p.1) dir with
       | Some p => p.1
       | None => default_name
       end.

Definition read_excel (dir : Directory) (name : string) : res DataFrame :=
  match List.find (fun p => String.eqb p.1 name) dir with
  | Some p => let? sh := p.2 in Ok (read_frame sh)
  | None => Err FileNotFoundError
  end.

(** How the write of the artifact goes: [open(filename, "wb")] can fail
    (nothing is created), or the file is created and [pickle.dump] fails
    part-way, leaving a truncated file. *)
Inductive PersistOutcome := PersistOk | OpenFails | DumpFails.

Record SetupEnv := {
  download : res Directory;
  persist_outcome : PersistOutcome }.

(** Observable effects of one script run. *)
Inductive event :=
  | EvSetupWarning        (* "First-time setup: ..." *)
  | EvInitError (e : exn) (* st.error("Initialization Error: ...") *)
  | EvReady               (* "System Ready!" *)
  | EvHeader
  | EvForm                (* the input widgets are rendered and read *)
  | EvResult (x : list Z) (y : Z)  (* a prediction on features x *)
  | EvBalloons
  | EvCalcError (e : exn)
  | EvUncaught (e : exn)  (* an exception escaping the script *)
  | EvFooter.

Definition is_inference_event (ev : event) : bool :=
  match ev with
  | EvForm | EvResult _ _ | EvBalloons | EvCalcError _ => true
  | _ => false
  end.

Definition no_inference (evs : list event) : Prop :=
  Forall (fun ev => is_inference_event ev = false) evs.

(** ** The model provider and the script *)

Section App.

(** The fitted regression and its two library entry points. *)
Variable Model : Type.
Variable lr_fit : list (list (option cell)) -> list (option cell) -> res Model.
Variable lr_predict : Model -> list Z -> res Z.

(** The pickled dictionary [{"model": LR, "encoder_temp": LE}];
    [encoder_temp] is [None] when a loaded dictionary lacks the key. *)
Record Data := {
  model : Model;
  encoder_temp : option LabelEncoder }.

(** The content of [crop_yield_model.pkl]. *)
Inductive file :=
  | FArtifact (d : Data)
  | FTruncated.

(** Steps 2 (after reading) to 4 of [get_model_data], lines 158-176. *)
Definition fit_frame (cy0 : DataFrame) : res Data :=
  let cy1 := dropna cy0 in
  let '(LE, cy) := encode_temperature LabelEncoder_new cy1 in
  let? ind := select cy feature_cols in
  let? dep := series cy target_col in
  let? LR := lr_fit ind dep in
  Ok {| model := LR; encoder_temp := Some LE |}.

(** Steps 1 to 4, lines 143-176. *)
Definition setup_train (env : SetupEnv) : res Data :=
  let? dir := download env in
  let file_path := locate dir in
  let? cy := read_excel dir file_path in
  fit_frame cy.

(** [get_model_data] without its cache, lines 129-187: the file system
    after the call, the messages shown, and the result ([Err] for an
    exception that escapes the function). *)
Definition get_model_data (fs : option file) (env : SetupEnv)
  : option file * list event * res (option Data) :=
  match fs with
  | Some (FArtifact d) => (fs, [], Ok (Some d))
  | Some FTruncated => (fs, [], Err UnpicklingError)
  | None =>
      match setup_train env with
      | Err e => (None, [EvSetupWarning; EvInitError e], Ok None)
      | Ok data =>
          match persist_outcome env with
          | PersistOk =>
              (Some (FArtifact data), [EvSetupWarning; EvReady], Ok (Some data))
          | OpenFails =>
              (None, [EvSetupWarning; EvInitError OSError], Ok None)
          | DumpFails =>
              (Some FTruncated, [EvSetupWarning; EvInitError PicklingError], Ok None)
          end
      end
  end.

(** The elements a call of [get_model_data] leaves on the page when it
    returns: on success the placeholder's warning is replaced by the
    success message and then cleared (lines 139-182), so nothing stays;
    otherwise the warning and the [st.error] stay. *)
Definition replay_of (evs : list event) : list event :=
  match evs with
  | [EvSetupWarning; EvReady] => []
  | _ => evs
  end.

(** The state of one server process: the file system, the cached value
    and the elements recorded with it. *)
Record PState := {
  ps_fs : option file;
  ps_cache : option (option Data);
  ps_replay : list event }.

Definition fresh_process (fs : option file) : PState :=
  {| ps_fs := fs; ps_cache := None; ps_replay := [] |}.

(** [@st.cache_resource]: a returned value (also [None]) is cached for
    the life of the process, together with the elements the call drew,
    which are replayed on every cache hit; an exception is not cached. *)
Definition cached_get_model_data (st : PState) (env : SetupEnv)
  : PState * list event * res (option Data) :=
  match ps_cache st with
  | Some v => (st, ps_replay st, Ok v)
  | None =>
      let '(fs', evs, r) := get_model_data (ps_fs st) env in
      match r with
      | Ok v => ({| ps_fs := fs'; ps_cache := Some v; ps_replay := replay_of evs |},
                 evs, Ok v)
      | Err e => ({| ps_fs := fs'; ps_cache := None; ps_replay := [] |}, evs, Err e)
      end
  end.

(** The prediction block, lines 246-276. *)
Definition predict_block (d : Data) (req : Request) : list event :=
  let x := inputs (encoder_temp d) req in
  match lr_predict (model d) x with
  | Ok y => EvResult x y :: (if 10 <? y then [EvBalloons] else [])
  | Err e => [EvCalcError e]
  end.

(** One run of the script; [press] is [Some req] when the
    "CALCULATE YIELD" button was pressed with the form values [req]. *)
Definition run_script (st : PState) (env : SetupEnv) (press : option Request)
  : PState * list event :=
  let '(st', evs, r) := cached_get_model_data st env in
  match r with
  | Err e => (st', evs ++ [EvUncaught e])
  | Ok data =>
      (st', evs ++ [EvHeader] ++
        match data with
        | Some d =>
            EvForm :: match press with
                      | Some req => predict_block d req
                      | None => []
                      end
        | None => []
        end ++ [EvFooter])
  end.

(** A sequence of script runs in one process. *)
Fixpoint run_many (st : PState) (runs : list (SetupEnv * option Request))
  : PState * list event :=
  match runs with
  | [] => (st, [])
  | (env, press) :: rs =>
      let '(st1, e1) := run_script st env press in
      let '(st2, e2) := run_many st1 rs in
      (st2, e1 ++ e2)
  end.

End App.

Arguments FArtifact {Model} d.
Arguments FTruncated {Model}.

Arguments Data : clear implicits.
Arguments Build_Data {Model} model encoder_temp.
Arguments model {Model} d.
Arguments encoder_temp {Model} d.
Arguments PState : clear implicits.
Arguments Build_PState {Model} ps_fs ps_cache ps_replay.
Arguments ps_fs {Model} p.
Arguments ps_cache {Model} p.
Arguments ps_replay {Model} p.
Arguments fit_frame {Model} lr_fit cy0.
Arguments setup_train {Model} lr_fit env.
Arguments get_model_data {Model} lr_fit fs env.
Arguments cached_get_model_data {Model} lr_fit st env.
Arguments predict_block {Model} lr_predict d req.
Arguments run_script {Model} lr_fit lr_predict st env press.
Arguments run_many {Model} lr_fit lr_predict st runs.
Arguments fresh_process {Model} fs.

(** ** Concrete inputs for running the model *)

(** A fitting procedure for concrete runs: like [LinearRegression.fit]
    it raises on an empty design matrix; otherwise its "model" is the
    number of samples. *)
Definition sample_fit (X : list (list (option cell))) (y : list (option cell))
  : res nat :=
  match X with [] => Err FitError | _ => Ok (length X) end.

Definition sample_predict (m : nat) (x : list Z) : res Z :=
  Ok (fold_right Z.add 0 x).

Definition num_row (zs : list Z) : list (option cell) := map (fun z => Some (CNum z)) zs.

Definition sample_columns : list string :=
  ["Rain Fall (mm)"; "Fertilizer"; "Temperatue"; "Nitrogen (N)";
   "Phosphorus (P)"; "Potassium (K)"; "Yeild (Q/acre)"].

Definition sample_frame : DataFrame :=
  {| df_columns := sample_columns;
     df_rows := [num_row [1200; 75; 28; 80; 24; 20; 12];
                 num_row [1100; 60; 30; 70; 20; 10; 9]] |}.

(** The same sheet with the column spelt "Temperature". *)
Definition renamed_frame : DataFrame :=
  {| df_columns := ["Rain Fall (mm)"; "Fertilizer"; "Temperature"; "Nitrogen (N)";
                    "Phosphorus (P)"; "Potassium (K)"; "Yeild (Q/acre)"];
     df_rows := df_rows sample_frame |}.

Definition env_of (cy : DataFrame) (p : PersistOutcome) : SetupEnv :=
  {| download := Ok [(default_name, Ok cy)]; persist_outcome := p |}.

Definition sample_request : Request :=
  {| rain := 1200; temp_input := 28; fertilizer := 75;
     nitrogen := 80; phosphorus := 24; potassium := 20 |}.

(** ** Helper lemmas *)

Lemma index_of_Some_In (s : string) (l : list string) (i : nat) :
  index_of s l = Some i -> In s l.
Proof.
  revert i. induction l as [|x l IH]; intros i; simpl; [discriminate|].
  destruct (String.eqb_spec s x) as [->|Hne]; [now left|].
  destruct (index_of s l) eqn:E; simpl; [|discriminate].
  intros _. right. now apply (IH n).
Qed.

Lemma index_of_None_iff (s : string) (l : list string) :
  index_of s l = None <-> ~ In s l.
Proof.
  induction l as [|x l IH]; simpl; [tauto|].
  destruct (String.eqb_spec s x) as [->|Hne].
  - split; [discriminate | tauto].
  - destruct (index_of s l) eqn:E; simpl.
    + split; [discriminate|]. intros H. exfalso. apply H. right.
      now apply (index_of_Some_In s l n).
    + split; [|reflexivity]. intros _ [H|H]; [congruence|]. now apply IH.
Qed.

Lemma has_column_index_of (cols : list string) (c : string) :
  has_column cols c = true -> exists i, index_of c cols = Some i.
Proof.
  unfold has_column. induction cols as [|x cols IH]; simpl; [discriminate|].
  destruct (String.eqb_spec c x) as [->|Hne].
  - intros _. now exists 0%nat.
  - simpl. intros H. destruct (IH H) as [i ->]. now exists (S i).
Qed.

(** ** C1: pass-through of the raw temperature *)

(** C1 (counterexample): an artifact whose encoder was never fitted
    does not pass the raw temperature through: [transform] raises
    [NotFittedError], the bare [except:] catches it, and the third
    feature is 0 rather than the input 28. *)
Lemma C1_unfitted_encoder_not_passthrough :
  inputs (Some LabelEncoder_new) sample_request !! 2%nat
    <> Some (temp_input sample_request).
Proof. vm_compute. congruence. Qed.

(** C1 (amended): the raw temperature reaches the feature vector only
    when the artifact carries no encoder at all; with an encoder present
    but unfitted, the third feature is the fallback code 0. *)
Theorem final_temp_passthrough_without_encoder (r : Request) :
  inputs None r !! 2%nat = Some (temp_input r) /\
  inputs (Some LabelEncoder_new) r !! 2%nat = Some 0.
Proof. split; reflexivity. Qed.

Lemma fit_frame_no_temperature {Model} (lr_fit : list (list (option cell)) -> list (option cell) -> res Model)
  (cy : DataFrame) :
  has_column (df_columns cy) temp_col = false ->
  fit_frame lr_fit cy = Err KeyError.
Proof.
  intros Hcol. unfold fit_frame, encode_temperature. simpl. rewrite Hcol.
  unfold select. cbn [forallb feature_cols df_columns dropna].
  unfold temp_col in Hcol. rewrite Hcol. now rewrite !andb_false_r.
Qed.

(** ** C2: the temperature column is absent *)

(** C2 (counterexample): with the column spelt "Temperature", the
    first-time setup produces no model: the selection of line 169
    raises [KeyError] and the provider reports an initialization
    failure. *)
Lemma C2_missing_column_no_model :
  get_model_data sample_fit None (env_of renamed_frame PersistOk)
    = (None, [EvSetupWarning; EvInitError KeyError], Ok None).
Proof. vm_compute. reflexivity. Qed.

(** C2 (amended): when the loaded sheet has no "Temperatue" column,
    encoding is skipped, but the feature selection names that column,
    so setup fails with [KeyError]: no model is returned and no artifact
    is written. *)
Theorem missing_temperature_column_init_error {Model}
  (lr_fit : list (list (option cell)) -> list (option cell) -> res Model)
  (env : SetupEnv) (dir : Directory) (cy : DataFrame)
  (Hdl : download env = Ok dir)
  (Hrd : read_excel dir (locate dir) = Ok cy)
  (Hcol : has_column (df_columns cy) temp_col = false) :
  get_model_data lr_fit None env
    = (None, [EvSetupWarning; EvInitError KeyError], Ok None).
Proof.
  unfold get_model_data, setup_train. rewrite Hdl. simpl. rewrite Hrd. simpl.
  now rewrite (fit_frame_no_temperature lr_fit cy Hcol).
Qed.

Lemma missing_temperature_column_init_error_witness :
  download (env_of renamed_frame PersistOk) = Ok [(default_name, Ok renamed_frame)] /\
  get_model_data sample_fit None (env_of renamed_frame PersistOk)
    = (None, [EvSetupWarning; EvInitError KeyError], Ok None).
Proof.
  split; [reflexivity|].
  apply (missing_temperature_column_init_error sample_fit
           (env_of renamed_frame PersistOk) [(default_name, Ok renamed_frame)]
           renamed_frame); vm_compute; reflexivity.
Defined.

(** ** C3: fallback for an unseen temperature *)

(** C3: for a fitted encoder whose labels do not contain the string form
    of the input temperature, the encoding block does not raise and uses
    code 0; the prediction block then runs the model on the vector with
    0 in third place, and the only error it can report comes from
    [model.predict]. *)
Theorem unseen_temperature_code_zero {Model} (lr_predict : Model -> list Z -> res Z)
  (d : Data Model) (cls : list string) (r : Request)
  (Henc : encoder_temp d = Some {| classes_ := Some cls |})
  (Hunseen : ~ In (py_str_int (temp_input r)) cls) :
  final_temp (encoder_temp d) (temp_input r) = 0 /\
  inputs (encoder_temp d) r
    = [rain r; fertilizer r; 0; nitrogen r; phosphorus r; potassium r] /\
  predict_block lr_predict d r
    = let x := [rain r; fertilizer r; 0; nitrogen r; phosphorus r; potassium r] in
      match lr_predict (model d) x with
      | Ok y => EvResult x y :: (if 10 <? y then [EvBalloons] else [])
      | Err e => [EvCalcError e]
      end.
Proof.
  assert (Hft : final_temp (encoder_temp d) (temp_input r) = 0).
  { rewrite Henc. unfold final_temp, le_transform. simpl.
    apply index_of_None_iff in Hunseen. now rewrite Hunseen. }
  split; [exact Hft|].
  unfold predict_block, inputs. rewrite Hft. split; reflexivity.
Qed.

Lemma unseen_temperature_code_zero_witness :
  predict_block sample_predict
    {| model := 2%nat; encoder_temp := Some {| classes_ := Some ["30"] |} |}
    sample_request
  = [EvResult [1200; 75; 0; 80; 24; 20] 1399; EvBalloons].
Proof.
  destruct (unseen_temperature_code_zero sample_predict
    {| model := 2%nat; encoder_temp := Some {| classes_ := Some ["30"] |} |}
    ["30"] sample_request) as [_ [_ H]].
  - reflexivity.
  - simpl. intros [H|H]; [discriminate|exact H].
  - rewrite H. reflexivity.
Defined.

(** ** C4: feature order *)

(** Reference for C4, following the spec's words: the request value that
    belongs in each training column of line 169. *)
Definition spec_feature (enc : option LabelEncoder) (r : Request) (c : string) : Z :=
  if String.eqb c "Rain Fall (mm)" then rain r
  else if String.eqb c "Fertilizer" then fertilizer r
  else if String.eqb c "Temperatue" then final_temp enc (temp_input r)
  else if String.eqb c "Nitrogen (N)" then nitrogen r
  else if String.eqb c "Phosphorus (P)" then phosphorus r
  else if String.eqb c "Potassium (K)" then potassium r
  else 0.

(** C4: a successful fit hands [LinearRegression.fit] the columns of
    [feature_cols] in that order, and every inference vector holds, in
    the same order, the request value of each of those columns
    (rainfall, fertilizer, temperature code, N, P, K). *)
Theorem feature_order_train_inference {Model}
  (lr_fit : list (list (option cell)) -> list (option cell) -> res Model)
  (cy : DataFrame) (d : Data Model) (enc : option LabelEncoder) (r : Request)
  (Hfit : fit_frame lr_fit cy = Ok d) :
  (exists cy' dep,
     lr_fit (map (fun row => map (cell_of (df_columns cy') row) feature_cols)
                 (df_rows cy')) dep = Ok (model d)) /\
  inputs enc r = map (spec_feature enc r) feature_cols.
Proof.
  split; [|reflexivity].
  unfold fit_frame in Hfit.
  destruct (encode_temperature LabelEncoder_new (dropna cy)) as [LE cy'].
  unfold select in Hfit.
  destruct (forallb (has_column (df_columns cy')) feature_cols); [|discriminate].
  simpl in Hfit.
  destruct (series cy' target_col) as [dep|e]; [|discriminate]. simpl in Hfit.
  destruct (lr_fit _ dep) as [LR|e] eqn:Hlr; [|discriminate].
  simpl in Hfit. injection Hfit as <-. now exists cy', dep.
Qed.

Lemma feature_order_train_inference_witness :
  inputs (Some {| classes_ := Some ["28"; "30"] |}) sample_request
    = [1200; 75; 0; 80; 24; 20].
Proof.
  destruct (feature_order_train_inference sample_fit sample_frame
    {| model := 2%nat; encoder_temp := Some {| classes_ := Some ["28"; "30"] |} |}
    (Some {| classes_ := Some ["28"; "30"] |}) sample_request) as [_ H].
  - vm_compute. reflexivity.
  - rewrite H. vm_compute. reflexivity.
Defined.

(** ** C5: an initialization failure disables inference *)

Lemma run_script_after_failure {Model} lr_fit lr_predict
  (st : PState Model) env press :
  ps_cache st = Some None ->
  run_script lr_fit lr_predict st env press = (st, ps_replay st ++ [EvHeader; EvFooter]).
Proof.
  intros Hc. unfold run_script, cached_get_model_data. now rewrite Hc.
Qed.

Lemma run_many_after_failure {Model} lr_fit lr_predict
  (st : PState Model) runs :
  ps_cache st = Some None ->
  no_inference (ps_replay st) ->
  ps_cache (run_many lr_fit lr_predict st runs).1 = Some None /\
  no_inference (run_many lr_fit lr_predict st runs).2.
Proof.
  intros Hc Hr. induction runs as [|[env press] runs IH]; simpl.
  - split; [exact Hc | constructor].
  - rewrite (run_script_after_failure lr_fit lr_predict st env press Hc).
    destruct (run_many lr_fit lr_predict st runs) as [st2 e2]. simpl in *.
    destruct IH as [IH1 IH2]. split; [exact IH1|].
    apply Forall_app; split; [|exact IH2].
    apply Forall_app; split; [exact Hr|]. repeat constructor.
Qed.

(** C5: when first-time setup fails (any exception in acquisition,
    reading, schema or fit, or in writing the artifact), the first run
    shows an initialization error, caches [None] and renders no form; no
    later run of the same process renders the form or predicts. *)
Theorem init_failure_disables_inference {Model}
  (lr_fit : list (list (option cell)) -> list (option cell) -> res Model)
  (lr_predict : Model -> list Z -> res Z)
  (env : SetupEnv) (press : option Request) (runs : list (SetupEnv * option Request))
  (Hfail : (exists e, setup_train lr_fit env = Err e) \/ persist_outcome env <> PersistOk) :
  let '(st1, evs1) := run_script lr_fit lr_predict (fresh_process None) env press in
  (exists e, In (EvInitError e) evs1) /\
  ps_cache st1 = Some None /\
  no_inference evs1 /\
  no_inference (run_many lr_fit lr_predict st1 runs).2.
Proof.
  assert (Hinit : exists e,
    get_model_data lr_fit None env = (None, [EvSetupWarning; EvInitError e], Ok None)
    \/ get_model_data lr_fit None env = (Some FTruncated, [EvSetupWarning; EvInitError e], Ok None)).
  { unfold get_model_data. destruct (setup_train lr_fit env) as [data|e] eqn:Hs.
    - destruct Hfail as [[e He]|Hp]; [discriminate|].
      destruct (persist_outcome env); [congruence| |].
      + exists OSError. now left.
      + exists PicklingError. now right.
    - exists e. now left. }
  destruct Hinit as [e Hinit].
  unfold run_script, cached_get_model_data. cbn [fresh_process ps_cache ps_fs].
  destruct Hinit as [H|H]; rewrite H; simpl;
    (split; [exists e; auto|]);
    (split; [reflexivity|]);
    (split; [repeat constructor|]);
    (apply run_many_after_failure; [reflexivity|repeat constructor]).
Qed.

Lemma init_failure_disables_inference_witness :
  run_script sample_fit sample_predict (fresh_process None)
    (env_of renamed_frame PersistOk) (Some sample_request)
  = ({| ps_fs := None; ps_cache := Some None;
        ps_replay := [EvSetupWarning; EvInitError KeyError] |},
     [EvSetupWarning; EvInitError KeyError; EvHeader; EvFooter]) /\
  no_inference (run_many sample_fit sample_predict
     {| ps_fs := None; ps_cache := Some None;
        ps_replay := [EvSetupWarning; EvInitError KeyError] |}
     [(env_of sample_frame PersistOk, Some sample_request)]).2.
Proof.
  pose proof (init_failure_disables_inference sample_fit sample_predict
    (env_of renamed_frame PersistOk) (Some sample_request)
    [(env_of sample_frame PersistOk, Some sample_request)]
    (or_introl (ex_intro _ KeyError eq_refl))) as H.
  vm_compute in H. vm_compute. split; [reflexivity|].
  destruct H as [_ [_ [_ H]]]. exact H.
Defined.

(** ** C6: a persisted artifact is trusted as read *)

(** C6: with an artifact at [crop_yield_model.pkl], the provider returns
    its content unchanged, whatever it holds (also an encoder that was
    never fitted, or none), shows no setup message and never trains: the
    result does not depend on the fitting procedure or on the dataset
    source; a fresh process caches that content. *)
Theorem artifact_returned_as_read {Model}
  (lr_fit : list (list (option cell)) -> list (option cell) -> res Model)
  (d : Data Model) (env : SetupEnv) :
  get_model_data lr_fit (Some (FArtifact d)) env
    = (Some (FArtifact d), [], Ok (Some d)) /\
  cached_get_model_data lr_fit (fresh_process (Some (FArtifact d))) env
    = ({| ps_fs := Some (FArtifact d); ps_cache := Some (Some d); ps_replay := [] |},
       [], Ok (Some d)).
Proof. split; reflexivity. Qed.

(** ** C7: the persisted pair, reloaded *)

(** C7: a first-time setup that trains the pair and writes it returns
    (and caches) that pair; a later process (a server restart) that
    finds the file loads exactly that pair without training, whatever
    the dataset source is then, and answers every request with the
    prediction the trained pair gives: the same third feature and the
    same output of [LR.predict]. *)
Theorem persisted_pair_round_trip {Model}
  (lr_fit : list (list (option cell)) -> list (option cell) -> res Model)
  (lr_predict : Model -> list Z -> res Z)
  (env : SetupEnv) (d : Data Model)
  (Hs : setup_train lr_fit env = Ok d)
  (Hp : persist_outcome env = PersistOk) :
  let st1 := (cached_get_model_data lr_fit (fresh_process None) env).1.1 in
  (cached_get_model_data lr_fit (fresh_process None) env).2 = Ok (Some d) /\
  forall env' req,
    (cached_get_model_data lr_fit (fresh_process (ps_fs st1)) env').2 = Ok (Some d) /\
    (run_script lr_fit lr_predict (fresh_process (ps_fs st1)) env' (Some req)).2
      = EvHeader :: EvForm :: predict_block lr_predict d req ++ [EvFooter].
Proof.
  assert (Hg : cached_get_model_data lr_fit (fresh_process None) env
    = ({| ps_fs := Some (FArtifact d); ps_cache := Some (Some d); ps_replay := [] |},
       [EvSetupWarning; EvReady], Ok (Some d))).
  { unfold cached_get_model_data. cbn [fresh_process ps_cache ps_fs].
    unfold get_model_data. rewrite Hs, Hp. reflexivity. }
  cbv zeta. rewrite Hg. cbn [fst snd ps_fs].
  split; [reflexivity|]. intros env' req. split; reflexivity.
Qed.

Lemma persisted_pair_round_trip_witness :
  (run_script sample_fit sample_predict
     (fresh_process (ps_fs (cached_get_model_data sample_fit (fresh_process None)
                              (env_of sample_frame PersistOk)).1.1))
     (env_of renamed_frame PersistOk) (Some sample_request)).2
  = [EvHeader; EvForm; EvResult [1200; 75; 0; 80; 24; 20] 1399; EvBalloons; EvFooter].
Proof.
  pose proof (persisted_pair_round_trip sample_fit sample_predict
    (env_of sample_frame PersistOk)
    {| model := 2%nat; encoder_temp := Some {| classes_ := Some ["28"; "30"] |} |}
    ltac:(vm_compute; reflexivity) eq_refl) as H.
  cbv zeta in H. destruct H as [_ H].
  rewrite (proj2 (H (env_of renamed_frame PersistOk) sample_request)).
  vm_compute. reflexivity.
Defined.

(** ** C8: rows with a missing value *)

(** The sheet with row [r] inserted at position [k]. *)
Definition insert_row (k : nat) (r : list (option cell)) (cy : DataFrame) : DataFrame :=
  {| df_columns := df_columns cy;
     df_rows := take k (df_rows cy) ++ r :: drop k (df_rows cy) |}.

Lemma row_complete_false (r : list (option cell)) :
  In None r -> row_complete r = false.
Proof.
  induction r as [|x r IH]; simpl; [tauto|].
  intros [->|H]; [reflexivity|]. rewrite (IH H). now destruct x.
Qed.

(** ** C9: persisted encoders are fitted *)

Lemma fit_frame_fitted_encoder {Model}
  (lr_fit : list (list (option cell)) -> list (option cell) -> res Model)
  (cy : DataFrame) (d : Data Model) :
  fit_frame lr_fit cy = Ok d ->
  has_column (df_columns cy) temp_col = true /\
  exists cls, encoder_temp d = Some {| classes_ := Some cls |}.
Proof.
  intros Hfit.
  destruct (has_column (df_columns cy) temp_col) eqn:Hcol.
  2:{ rewrite (fit_frame_no_temperature lr_fit cy Hcol) in Hfit. discriminate. }
  split; [reflexivity|].
  destruct (has_column_index_of _ _ Hcol) as [i Hi].
  unfold fit_frame, encode_temperature in Hfit. simpl in Hfit.
  rewrite Hcol, Hi in Hfit. unfold le_fit_transform in Hfit.
  destruct (select _ feature_cols); [|discriminate]. simpl in Hfit.
  destruct (series _ target_col); [|discriminate]. simpl in Hfit.
  destruct (lr_fit _ _); [|discriminate]. simpl in Hfit.
  injection Hfit as <-. eexists. reflexivity.
Qed.

Definition artifact_fitted {Model} (fs : option (file Model)) : Prop :=
  match fs with
  | Some (FArtifact d) => exists cls, encoder_temp d = Some {| classes_ := Some cls |}
  | _ => True
  end.

(** C9: the only artifact [get_model_data] writes holds an encoder
    fitted on the "Temperatue" column, and is written only when the
    loaded sheet had that column; hence in a process started without an
    artifact (or with one so written), every artifact on disk after any
    sequence of runs has a fitted encoder. *)
Theorem persisted_artifact_has_fitted_encoder {Model}
  (lr_fit : list (list (option cell)) -> list (option cell) -> res Model)
  (lr_predict : Model -> list Z -> res Z)
  (env : SetupEnv) (d : Data Model)
  (Hwrite : (get_model_data lr_fit None env).1.1 = Some (FArtifact d)) :
  (exists cls, encoder_temp d = Some {| classes_ := Some cls |}) /\
  (exists dir cy, download env = Ok dir /\ read_excel dir (locate dir) = Ok cy /\
                  has_column (df_columns cy) temp_col = true) /\
  (forall (st : PState Model) runs,
     artifact_fitted (ps_fs st) ->
     artifact_fitted (ps_fs (run_many lr_fit lr_predict st runs).1)).
Proof.
  assert (Hgen : forall env' d',
    (get_model_data lr_fit None env').1.1 = Some (FArtifact d') ->
    exists dir cy, download env' = Ok dir /\ read_excel dir (locate dir) = Ok cy /\
      fit_frame lr_fit cy = Ok d').
  { intros env' d' H. unfold get_model_data in H.
    destruct (setup_train lr_fit env') as [data|e] eqn:Hs; [|discriminate].
    destruct (persist_outcome env'); try discriminate.
    simpl in H. injection H as <-.
    unfold setup_train in Hs.
    destruct (download env') as [dir|e] eqn:Hdl; [|discriminate]. simpl in Hs.
    destruct (read_excel dir (locate dir)) as [cy|e] eqn:Hrd; [|discriminate].
    simpl in Hs. now exists dir, cy. }
  destruct (Hgen env d Hwrite) as (dir & cy & Hdl & Hrd & Hfit).
  destruct (fit_frame_fitted_encoder lr_fit cy d Hfit) as [Hcol Henc].
  split; [exact Henc|]. split; [now exists dir, cy|].
  (* the invariant over runs *)
  assert (Hstep : forall (st : PState Model) env' press,
    artifact_fitted (ps_fs st) ->
    artifact_fitted (ps_fs (run_script lr_fit lr_predict st env' press).1)).
  { intros st env' press Hst. unfold run_script, cached_get_model_data.
    destruct (ps_cache st) as [v|].
    - exact Hst.
    - destruct (get_model_data lr_fit (ps_fs st) env') as [[fs' evs] r] eqn:Hg.
      assert (Hfs : artifact_fitted fs').
      { destruct (ps_fs st) as [[d0|]|] eqn:Hf.
        - unfold get_model_data in Hg. injection Hg as <- _ _. exact Hst.
        - unfold get_model_data in Hg. injection Hg as <- _ _. exact I.
        - destruct fs' as [[d'|]|]; simpl; try exact I.
          assert (Hw : (get_model_data lr_fit None env').1.1 = Some (FArtifact d'))
            by now rewrite Hg.
          destruct (Hgen env' d' Hw) as (dir' & cy' & _ & _ & Hfit').
          exact (proj2 (fit_frame_fitted_encoder lr_fit cy' d' Hfit')). }
      destruct r; exact Hfs. }
  intros st runs. revert st. induction runs as [|[env' press] runs IH]; intros st Hst.
  - exact Hst.
  - simpl. specialize (Hstep st env' press Hst).
    destruct (run_script lr_fit lr_predict st env' press) as [st1 e1].
    specialize (IH st1 Hstep).
    destruct (run_many lr_fit lr_predict st1 runs) as [st2 e2]. exact IH.
Qed.

Lemma persisted_artifact_has_fitted_encoder_witness :
  exists cls, encoder_temp
    {| model := 2%nat; encoder_temp := Some {| classes_ := Some ["28"; "30"] |} |}
    = Some {| classes_ := Some cls |}.
Proof.
  apply (persisted_artifact_has_fitted_encoder sample_fit sample_predict
    (env_of sample_frame PersistOk)).
  vm_compute. reflexivity.
Defined.

(** ** C10: the artifact file after a failed setup *)

(** C10 (counterexample): the download, read and fit succeed, but
    [pickle.dump] fails inside the opened file.  Setup reports an
    initialization failure, yet a truncated file is left at the artifact
    path; a fresh process then takes the load path, whose
    [pickle.load] raises outside the [try] block, and never retrains. *)
Lemma C10_dump_failure_leaves_file :
  get_model_data sample_fit None (env_of sample_frame DumpFails)
    = (Some FTruncated, [EvSetupWarning; EvInitError PicklingError], Ok None) /\
  run_script sample_fit sample_predict (fresh_process (Some FTruncated))
    (env_of sample_frame PersistOk) None
    = (fresh_process (Some FTruncated), [EvUncaught UnpicklingError]).
Proof. split; vm_compute; reflexivity. Qed.

(** C10 (amended): the artifact path is written only after a successful
    fit.  A failure before the write (download, file location, reading,
    column mismatch, fit) or in opening the file leaves no file, and a
    fresh process goes through the setup again.  A failure of
    [pickle.dump] after the file was opened leaves a truncated file,
    which a fresh process tries to load (and fails) instead of
    retraining. *)
Theorem artifact_written_only_after_fit {Model}
  (lr_fit : list (list (option cell)) -> list (option cell) -> res Model)
  (env : SetupEnv) :
  let '(fs', evs, r) := get_model_data lr_fit None env in
  (fs' <> None -> exists d, setup_train lr_fit env = Ok d) /\
  ((exists e, setup_train lr_fit env = Err e) \/ persist_outcome env = OpenFails ->
     r = Ok None /\ fs' = None /\
     forall env', hd_error (get_model_data lr_fit fs' env').1.2 = Some EvSetupWarning) /\
  ((exists d, setup_train lr_fit env = Ok d) -> persist_outcome env = DumpFails ->
     r = Ok None /\ fs' = Some FTruncated /\
     forall env', (get_model_data lr_fit fs' env').2 = Err UnpicklingError).
Proof.
  assert (Hretry : forall env',
    hd_error (get_model_data lr_fit None env').1.2 = Some EvSetupWarning).
  { intros env'. unfold get_model_data.
    destruct (setup_train lr_fit env'); [destruct (persist_outcome env')|];
      reflexivity. }
  unfold get_model_data at 1.
  destruct (setup_train lr_fit env) as [data|e] eqn:Hs.
  - destruct (persist_outcome env) eqn:Hp; simpl.
    + split; [intros _; now exists data|].
      split; [intros [[e He]|H]; discriminate|].
      intros _ H; discriminate.
    + split; [intros []; reflexivity|].
      split; [intros _; split; [reflexivity|]; split; [reflexivity|exact Hretry]|].
      intros _ H; discriminate.
    + split; [intros _; now exists data|].
      split; [intros [[e He]|H]; discriminate|].
      intros _ _. split; [reflexivity|]. split; reflexivity.
  - simpl. split; [intros []; reflexivity|].
    split; [intros _; split; [reflexivity|]; split; [reflexivity|exact Hretry]|].
    intros [d Hd]; discriminate.
Qed.

Lemma artifact_written_only_after_fit_witness :
  hd_error (get_model_data sample_fit None (env_of sample_frame PersistOk)).1.2
    = Some EvSetupWarning.
Proof.
  pose proof (artifact_written_only_after_fit sample_fit (env_of renamed_frame PersistOk))
    as H.
  vm_compute in H. destruct H as [_ [H _]].
  destruct (H (or_introl (ex_intro _ KeyError eq_refl))) as [_ [_ H']].
  exact (H' (env_of sample_frame PersistOk)).
Defined.

(** * Further properties of app.py *)

(** ** Helper lemmas on labels and column lookup *)

Lemma In_insert_unique (s y : string) (l : list string) :
  In y (insert_unique s l) <-> y = s \/ In y l.
Proof.
  induction l as [|x l IH]; simpl; [intuition congruence|].
  destruct (String.compare s x) eqn:Hc; simpl.
  - apply String.compare_eq_iff in Hc. subst. intuition congruence.
  - intuition congruence.
  - rewrite IH. intuition congruence.
Qed.

Lemma In_np_unique (y : string) (l : list string) :
  In y (np_unique l) <-> In y l.
Proof.
  unfold np_unique. induction l as [|x l IH]; simpl; [tauto|].
  rewrite In_insert_unique, IH. intuition congruence.
Qed.

Lemma index_of_lookup (s : string) (l : list string) (i : nat) :
  index_of s l = Some i -> l !! i = Some s.
Proof.
  revert i. induction l as [|x l IH]; intros i; simpl; [discriminate|].
  destruct (String.eqb_spec s x) as [->|Hne].
  - intros [= <-]. reflexivity.
  - destruct (index_of s l) as [j|] eqn:E; simpl; [|discriminate].
    intros [= <-]. simpl. now apply IH.
Qed.

Lemma In_index_of (s : string) (l : list string) :
  In s l -> exists i, index_of s l = Some i /\ (i < length l)%nat.
Proof.
  intros Hin. destruct (index_of s l) as [i|] eqn:E.
  - exists i. split; [reflexivity|].
    apply lookup_lt_Some with s. now apply index_of_lookup.
  - apply index_of_None_iff in E. contradiction.
Qed.

Lemma length_encode_temperature (LE : LabelEncoder) (cy : DataFrame) :
  df_columns (encode_temperature LE cy).2 = df_columns cy /\
  length (df_rows (encode_temperature LE cy).2) = length (df_rows cy).
Proof.
  unfold encode_temperature.
  destruct (has_column (df_columns cy) temp_col); [|split; reflexivity].
  destruct (index_of temp_col (df_columns cy)) as [i|]; [|split; reflexivity].
  unfold le_fit_transform. simpl. split; [reflexivity|].
  rewrite length_zip_with, !length_map. lia.
Qed.

Lemma lookup_map_Some {A B} (f : A -> B) (l : list A) (k : nat) (x : A) :
  l !! k = Some x -> map f l !! k = Some (f x).
Proof.
  revert k. induction l as [|y l IH]; intros [|k]; simpl; try discriminate.
  - now intros [= ->].
  - apply IH.
Qed.

Lemma lookup_zip_with_Some {A B C} (f : A -> B -> C) (l1 : list A) (l2 : list B)
  (k : nat) (x : A) (y : B) :
  l1 !! k = Some x -> l2 !! k = Some y -> zip_with f l1 l2 !! k = Some (f x y).
Proof.
  revert l2 k. induction l1 as [|a l1 IH]; intros [|b l2] [|k]; simpl;
    try discriminate.
  - now intros [= ->] [= ->].
  - apply IH.
Qed.

Lemma lookup_In {A} (l : list A) (k : nat) (x : A) : l !! k = Some x -> In x l.
Proof.
  revert k. induction l as [|y l IH]; intros [|k]; simpl; try discriminate.
  - intros [= ->]. now left.
  - intros H. right. now apply (IH k).
Qed.

Lemma index_of_has_column (cols : list string) (c : string) (i : nat) :
  index_of c cols = Some i -> has_column cols c = true.
Proof.
  intros H. apply index_of_lookup, lookup_In in H.
  unfold has_column. apply existsb_exists. exists c.
  split; [exact H | apply String.eqb_refl].
Qed.

(** ** X1: training codes and inference codes agree *)

(** The encoder fitted while encoding the "Temperatue" column maps, at
    inference, the integer temperature of any training row to exactly
    the code written into that row, and that code is a valid index into
    the encoder's labels. *)
Theorem training_code_matches_inference_code (LE0 : LabelEncoder) (cy : DataFrame)
  (k : nat) (r : list (option cell)) (t : Z)
  (Hrow : df_rows cy !! k = Some r)
  (Hcell : cell_of (df_columns cy) r temp_col = Some (CNum t)) :
  let '(LE, cy') := encode_temperature LE0 cy in
  exists r' c,
    df_rows cy' !! k = Some r' /\
    cell_of (df_columns cy') r' temp_col = Some (CNum c) /\
    final_temp (Some LE) t = c /\
    (exists cls, classes_ LE = Some cls /\ 0 <= c < Z.of_nat (length cls)).
Proof.
  unfold cell_of in Hcell.
  destruct (index_of temp_col (df_columns cy)) as [i|] eqn:Hi; [|discriminate].
  destruct (r !! i) as [x|] eqn:Hri; [|discriminate]. subst x.
  unfold encode_temperature. rewrite (index_of_has_column _ _ _ Hi), Hi.
  set (labels := map (fun r0 => cell_str (cell_of (df_columns cy) r0 temp_col))
                     (df_rows cy)).
  assert (Hlab : labels !! k = Some (pretty t)).
  { unfold labels. rewrite (lookup_map_Some _ _ _ _ Hrow).
    unfold cell_of. now rewrite Hi, Hri. }
  destruct (In_index_of (pretty t) (np_unique labels)) as [j [Hj Hjlt]].
  { apply In_np_unique. now apply lookup_In with k. }
  unfold le_fit_transform. cbn -[np_unique].
  exists (<[i := Some (CNum (Z.of_nat j))]> r), (Z.of_nat j).
  split; [|split; [|split]].
  - apply (lookup_zip_with_Some (fun r0 c => <[i := Some (CNum c)]> r0)
             _ _ k r (Z.of_nat j)); [exact Hrow|].
    rewrite (lookup_map_Some _ _ _ _ Hlab). now rewrite Hj.
  - unfold cell_of. rewrite Hi. rewrite list_lookup_insert_eq; [reflexivity|].
    now apply lookup_lt_Some with (Some (CNum t)).
  - unfold final_temp, le_transform, py_str_int. simpl. now rewrite Hj.
  - exists (np_unique labels). split; [reflexivity|]. lia.
Qed.

Lemma training_code_matches_inference_code_witness :
  final_temp (Some (encode_temperature LabelEncoder_new sample_frame).1) 30 = 1.
Proof.
  pose proof (training_code_matches_inference_code LabelEncoder_new sample_frame 1
    (num_row [1100; 60; 30; 70; 20; 10; 9]) 30 eq_refl eq_refl) as H.
  vm_compute in H. destruct H as (r' & c & Hr & Hc & Hf & _).
  injection Hr as <-. vm_compute in Hc. injection Hc as <-.
  vm_compute. exact Hf.
Defined.

(** ** X2: the labels the encoder knows *)

Lemma In_dropna_rows (cy : DataFrame) (r : list (option cell)) :
  In r (df_rows (dropna cy)) <-> In r (df_rows cy) /\ row_complete r = true.
Proof.
  unfold dropna. simpl. rewrite <- list_elem_of_In, list_elem_of_filter,
    list_elem_of_In. tauto.
Qed.

Lemma fit_frame_encoder_classes {Model}
  (lr_fit : list (list (option cell)) -> list (option cell) -> res Model)
  (cy : DataFrame) (d : Data Model) :
  fit_frame lr_fit cy = Ok d ->
  encoder_temp d = Some {| classes_ := Some (np_unique
    (map (fun r => cell_str (cell_of (df_columns cy) r temp_col)) (df_rows (dropna cy)))) |}.
Proof.
  intros Hfit.
  destruct (fit_frame_fitted_encoder lr_fit cy d Hfit) as [Hcol _].
  destruct (has_column_index_of _ _ Hcol) as [i Hi].
  unfold fit_frame, encode_temperature in Hfit. simpl in Hfit.
  rewrite Hcol, Hi in Hfit. unfold le_fit_transform in Hfit.
  destruct (select _ feature_cols); [|discriminate]. simpl in Hfit.
  destruct (series _ target_col); [|discriminate]. simpl in Hfit.
  destruct (lr_fit _ _); [|discriminate]. simpl in Hfit.
  injection Hfit as <-. reflexivity.
Qed.

(** After a successful fit, the labels of the persisted encoder are
    exactly the string forms of the "Temperatue" cells of the complete
    rows of the frame, as pandas typed them (rows dropped by [dropna]
    contribute no label; a float column gives labels such as "28.0"):
    a temperature is encoded at inference iff its string form is one of
    them, otherwise it falls back to 0. *)
Theorem fitted_labels_are_complete_row_temperatures {Model}
  (lr_fit : list (list (option cell)) -> list (option cell) -> res Model)
  (cy : DataFrame) (d : Data Model)
  (Hfit : fit_frame lr_fit cy = Ok d) :
  exists cls,
    encoder_temp d = Some {| classes_ := Some cls |} /\
    forall y, In y cls <->
      exists r, In r (df_rows cy) /\ row_complete r = true /\
                cell_str (cell_of (df_columns cy) r temp_col) = y.
Proof.
  rewrite (fit_frame_encoder_classes lr_fit cy d Hfit).
  eexists. split; [reflexivity|].
  intros y. rewrite In_np_unique, in_map_iff. split.
  - intros [r [Hy Hr]]. apply In_dropna_rows in Hr. exists r. tauto.
  - intros [r [Hr [Hc Hy]]]. exists r. split; [exact Hy|].
    now apply In_dropna_rows.
Qed.

Lemma fitted_labels_are_complete_row_temperatures_witness :
  exists cls,
    encoder_temp {| model := 2%nat; encoder_temp := Some {| classes_ := Some ["28"; "30"] |} |}
      = Some {| classes_ := Some cls |} /\
    forall y, In y cls <->
      exists r, In r (df_rows sample_frame) /\ row_complete r = true /\
                cell_str (cell_of (df_columns sample_frame) r temp_col) = y.
Proof.
  apply (fitted_labels_are_complete_row_temperatures sample_fit sample_frame).
  vm_compute. reflexivity.
Defined.

(** ** X3: encoding touches only the temperature column *)

(** [encode_temperature] keeps the column list and the number of rows,
    and leaves the cell of every column other than "Temperatue"
    unchanged in every row. *)
Theorem encode_temperature_keeps_other_columns (LE0 : LabelEncoder) (cy : DataFrame)
  (c : string) (Hc : c <> temp_col) :
  let cy' := (encode_temperature LE0 cy).2 in
  df_columns cy' = df_columns cy /\
  length (df_rows cy') = length (df_rows cy) /\
  forall k r, df_rows cy !! k = Some r ->
    exists r', df_rows cy' !! k = Some r' /\
               cell_of (df_columns cy') r' c = cell_of (df_columns cy) r c.
Proof.
  destruct (length_encode_temperature LE0 cy) as [Hcols Hlen].
  simpl. split; [exact Hcols|]. split; [exact Hlen|].
  intros k r Hrow. unfold encode_temperature.
  destruct (has_column (df_columns cy) temp_col); [|exists r; now split].
  destruct (index_of temp_col (df_columns cy)) as [i|] eqn:Hi; [|exists r; now split].
  unfold le_fit_transform. cbn -[np_unique].
  set (labels := map (fun r0 => cell_str (cell_of (df_columns cy) r0 temp_col))
                     (df_rows cy)).
  set (code := fun y => match index_of y (np_unique labels) with
                        | Some i0 => Z.of_nat i0 | None => 0 end).
  exists (<[i := Some (CNum (code (cell_str (cell_of (df_columns cy) r temp_col))))]> r).
  split.
  - apply (lookup_zip_with_Some (fun r0 c0 => <[i := Some (CNum c0)]> r0)
             _ _ k r); [exact Hrow|].
    apply (lookup_map_Some code). unfold labels.
    now apply (lookup_map_Some (fun r0 => cell_str (cell_of (df_columns cy) r0 temp_col))).
  - unfold cell_of. destruct (index_of c (df_columns cy)) as [i'|] eqn:Hi'; [|reflexivity].
    rewrite list_lookup_insert_ne; [reflexivity|].
    intros ->. apply Hc.
    apply index_of_lookup in Hi, Hi'. congruence.
Qed.

Lemma encode_temperature_keeps_other_columns_witness :
  exists r', df_rows (encode_temperature LabelEncoder_new sample_frame).2 !! 0%nat = Some r' /\
    cell_of sample_columns r' "Fertilizer" = Some (CNum 75).
Proof.
  destruct (encode_temperature_keeps_other_columns LabelEncoder_new sample_frame
    "Fertilizer") as [Hcols [_ H]].
  - discriminate.
  - destruct (H 0%nat (num_row [1200; 75; 28; 80; 24; 20; 12]) eq_refl) as [r' [Hr Hc]].
    exists r'. split; [exact Hr|]. rewrite Hcols in Hc. exact Hc.
Defined.

(** ** X4, X5: locating the dataset file *)

(** When the exact file name is absent, [locate] picks the first file of
    the listing whose name ends in ".xlsx". *)
Theorem locate_first_xlsx (dir pre post : Directory) (p : string * res DataFrame)
  (Habsent : file_exists dir default_name = false)
  (Hdir : dir = pre ++ p :: post)
  (Hpre : forall q, In q pre -> ends_with ".xlsx" q.1 = false)
  (Hp : ends_with ".xlsx" p.1 = true) :
  locate dir = p.1.
Proof.
  unfold locate. rewrite Habsent, Hdir. clear Habsent Hdir.
  induction pre as [|q pre IH]; simpl.
  - now rewrite Hp.
  - rewrite (Hpre q (or_introl eq_refl)). apply IH.
    intros q' Hq'. apply Hpre. now right.
Qed.

Lemma locate_first_xlsx_witness :
  locate [("notes.csv", Err ReadError); ("a.xlsx", Ok sample_frame);
          ("b.xlsx", Ok renamed_frame)] = "a.xlsx".
Proof.
  apply (locate_first_xlsx _ [("notes.csv", Err ReadError)]
           [("b.xlsx", Ok renamed_frame)] ("a.xlsx", Ok sample_frame));
    try reflexivity.
  intros q [<-|[]]. reflexivity.
Defined.

Lemma find_all_false {A} (f : A -> bool) (l : list A) :
  (forall x, In x l -> f x = false) -> List.find f l = None.
Proof.
  induction l as [|x l IH]; intros H; simpl; [reflexivity|].
  rewrite (H x (or_introl eq_refl)). apply IH. intros y Hy. apply H. now right.
Qed.

(** A downloaded directory without any ".xlsx" file (for instance an
    empty one) makes first-time setup fail with [FileNotFoundError]:
    [read_excel] is called on the default path, which does not exist. *)
Theorem no_xlsx_file_not_found {Model}
  (lr_fit : list (list (option cell)) -> list (option cell) -> res Model)
  (env : SetupEnv) (dir : Directory)
  (Hdl : download env = Ok dir)
  (Hnone : forall q, In q dir -> ends_with ".xlsx" q.1 = false) :
  get_model_data lr_fit None env
    = (None, [EvSetupWarning; EvInitError FileNotFoundError], Ok None).
Proof.
  assert (Hnodef : forall q, In q dir -> String.eqb q.1 default_name = false).
  { intros q Hq. destruct (String.eqb_spec q.1 default_name) as [He|]; [|reflexivity].
    rewrite <- (Hnone q Hq), He. reflexivity. }
  assert (Hex : file_exists dir default_name = false).
  { unfold file_exists. apply Bool.not_true_iff_false. intros Htrue.
    apply existsb_exists in Htrue as [q [Hq Heq]].
    rewrite (Hnodef q Hq) in Heq. discriminate. }
  assert (Hloc : locate dir = default_name).
  { unfold locate. rewrite Hex.
    now rewrite (find_all_false (fun p => ends_with ".xlsx" p.1) dir Hnone). }
  assert (Hrd : read_excel dir (locate dir) = Err FileNotFoundError).
  { unfold read_excel. rewrite Hloc.
    now rewrite (find_all_false (fun p => String.eqb p.1 default_name) dir Hnodef). }
  unfold get_model_data, setup_train. rewrite Hdl. simpl. now rewrite Hrd.
Qed.

Lemma no_xlsx_file_not_found_witness :
  get_model_data sample_fit None
    {| download := Ok [("data.csv", Ok sample_frame)]; persist_outcome := PersistOk |}
    = (None, [EvSetupWarning; EvInitError FileNotFoundError], Ok None).
Proof.
  apply (no_xlsx_file_not_found sample_fit _ [("data.csv", Ok sample_frame)]);
    [reflexivity|].
  intros q [<-|[]]. reflexivity.
Defined.

(** ** X6: persist, then reload in a fresh process *)

(** A successful first-time setup writes the artifact, caches the model
    and renders the form; a later fresh process (server restart) finds
    the artifact, caches the same data and shows no setup message. *)
Theorem setup_persists_then_reloads {Model}
  (lr_fit : list (list (option cell)) -> list (option cell) -> res Model)
  (lr_predict : Model -> list Z -> res Z)
  (env : SetupEnv) (press : option Request) (d : Data Model)
  (Hs : setup_train lr_fit env = Ok d)
  (Hp : persist_outcome env = PersistOk) :
  let '(st1, evs1) := run_script lr_fit lr_predict (fresh_process None) env press in
  st1 = {| ps_fs := Some (FArtifact d); ps_cache := Some (Some d); ps_replay := [] |} /\
  hd_error evs1 = Some EvSetupWarning /\ In EvForm evs1 /\
  forall env' press',
    (run_script lr_fit lr_predict (fresh_process (ps_fs st1)) env' press').1 = st1 /\
    ~ In EvSetupWarning (run_script lr_fit lr_predict (fresh_process (ps_fs st1)) env' press').2.
Proof.
  unfold run_script at 1, cached_get_model_data at 1.
  cbn [fresh_process ps_cache ps_fs].
  unfold get_model_data at 1. rewrite Hs, Hp. cbn.
  split; [reflexivity|]. split; [reflexivity|].
  split; [right; right; right; now left|].
  intros env' press'. unfold run_script, cached_get_model_data. cbn.
  split; [reflexivity|].
  intros [H|[H|H]]; try discriminate.
  apply in_app_or in H as [H|[H|H]]; [|discriminate|contradiction].
  destruct press' as [req|]; simpl in H; [|contradiction].
  unfold predict_block in H. destruct (lr_predict _ _) as [y|e].
  - destruct H as [H|H]; [discriminate|].
    destruct (10 <? y); simpl in H; intuition discriminate.
  - simpl in H. intuition discriminate.
Qed.

Lemma setup_persists_then_reloads_witness :
  (run_script sample_fit sample_predict (fresh_process None)
     (env_of sample_frame PersistOk) None).1
  = {| ps_fs := Some (FArtifact {| model := 2%nat;
         encoder_temp := Some {| classes_ := Some ["28"; "30"] |} |});
       ps_cache := Some (Some {| model := 2%nat;
         encoder_temp := Some {| classes_ := Some ["28"; "30"] |} |});
       ps_replay := [] |}.
Proof.
  pose proof (setup_persists_then_reloads sample_fit sample_predict
    (env_of sample_frame PersistOk) None
    {| model := 2%nat; encoder_temp := Some {| classes_ := Some ["28"; "30"] |} |}
    ltac:(vm_compute; reflexivity) eq_refl) as H.
  destruct (run_script sample_fit sample_predict (fresh_process None)
              (env_of sample_frame PersistOk) None) as [st1 evs1].
  exact (proj1 H).
Defined.

(** ** X7, X8: runs served from the cache *)

(** After a first-time setup that failed inside the provider (it returned
    [None]), the process keeps [None] together with the elements that call
    drew: every later run shows the setup warning and the initialization
    error again, then the header and the footer, and changes nothing; it
    never retries the setup. *)
Theorem failed_setup_shown_on_every_run {Model}
  (lr_fit : list (list (option cell)) -> list (option cell) -> res Model)
  (lr_predict : Model -> list Z -> res Z)
  (env : SetupEnv) (press : option Request) (fs1 : option (file Model))
  (evs : list event) (runs : list (SetupEnv * option Request))
  (Hfail : get_model_data lr_fit None env = (fs1, evs, Ok None)) :
  let st1 := (run_script lr_fit lr_predict (fresh_process None) env press).1 in
  (exists e, evs = [EvSetupWarning; EvInitError e]) /\
  run_many lr_fit lr_predict st1 runs
    = (st1, flat_map (fun _ => evs ++ [EvHeader; EvFooter]) runs).
Proof.
  assert (Hevs : exists e, evs = [EvSetupWarning; EvInitError e]).
  { unfold get_model_data in Hfail.
    destruct (setup_train lr_fit env) as [data|e].
    - destruct (persist_outcome env); injection Hfail as <- <-;
        [discriminate|eexists; reflexivity..].
    - injection Hfail as <- <-. eexists; reflexivity. }
  cbv zeta. split; [exact Hevs|].
  destruct Hevs as [e ->].
  assert (Hst : (run_script lr_fit lr_predict (fresh_process None) env press).1
    = {| ps_fs := fs1; ps_cache := Some None;
         ps_replay := [EvSetupWarning; EvInitError e] |}).
  { unfold run_script, cached_get_model_data.
    cbn [fresh_process ps_cache ps_fs]. rewrite Hfail. reflexivity. }
  rewrite Hst.
  induction runs as [|[env' press'] runs IH]; [reflexivity|].
  cbn [run_many].
  rewrite (run_script_after_failure lr_fit lr_predict
    {| ps_fs := fs1; ps_cache := Some None;
       ps_replay := [EvSetupWarning; EvInitError e] |} env' press' eq_refl).
  rewrite IH. reflexivity.
Qed.

Lemma failed_setup_shown_on_every_run_witness :
  run_many sample_fit sample_predict
    (run_script sample_fit sample_predict (fresh_process None)
       (env_of renamed_frame PersistOk) None).1
    [(env_of sample_frame PersistOk, Some sample_request);
     (env_of sample_frame PersistOk, None)]
  = ({| ps_fs := None; ps_cache := Some None;
        ps_replay := [EvSetupWarning; EvInitError KeyError] |},
     [EvSetupWarning; EvInitError KeyError; EvHeader; EvFooter;
      EvSetupWarning; EvInitError KeyError; EvHeader; EvFooter]).
Proof.
  rewrite (proj2 (failed_setup_shown_on_every_run sample_fit sample_predict
    (env_of renamed_frame PersistOk) None None [EvSetupWarning; EvInitError KeyError]
    [(env_of sample_frame PersistOk, Some sample_request);
     (env_of sample_frame PersistOk, None)]
    ltac:(vm_compute; reflexivity))).
  vm_compute. reflexivity.
Defined.

(** The events of one run of the script once the model is loaded. *)
Definition served_events {Model} (lr_predict : Model -> list Z -> res Z)
  (d : Data Model) (press : option Request) : list event :=
  EvHeader :: EvForm ::
    (match press with Some req => predict_block lr_predict d req | None => [] end)
    ++ [EvFooter].

(** With a loaded model, each run shows the elements replayed from the
    cache, renders the form and handles its own request only: a calculation error in one request leaves the process
    unchanged, and every later request is predicted as if it came
    first. *)
Theorem loaded_model_serves_each_request {Model}
  (lr_fit : list (list (option cell)) -> list (option cell) -> res Model)
  (lr_predict : Model -> list Z -> res Z)
  (st : PState Model) (d : Data Model) (runs : list (SetupEnv * option Request))
  (Hc : ps_cache st = Some (Some d)) :
  run_many lr_fit lr_predict st runs
    = (st, flat_map (fun run => ps_replay st ++ served_events lr_predict d run.2) runs).
Proof.
  induction runs as [|[env press] runs IH]; simpl; [reflexivity|].
  destruct (run_script lr_fit lr_predict st env press) as [st1 e1] eqn:Hrs.
  unfold run_script, cached_get_model_data in Hrs. rewrite Hc in Hrs.
  simpl in Hrs. injection Hrs as <- <-.
  rewrite IH. reflexivity.
Qed.

Lemma loaded_model_serves_each_request_witness :
  (run_many sample_fit (fun _ x => if (nth 0 x 0 =? 0) then Err PredictError
                                   else sample_predict 0%nat x)
     {| ps_fs := None; ps_cache := Some (Some {| model := 2%nat; encoder_temp := None |});
        ps_replay := [] |}
     [(env_of sample_frame PersistOk, Some {| rain := 0; temp_input := 28; fertilizer := 0;
                                               nitrogen := 0; phosphorus := 0; potassium := 0 |});
      (env_of sample_frame PersistOk, Some sample_request)]).2
  = [EvHeader; EvForm; EvCalcError PredictError; EvFooter;
     EvHeader; EvForm; EvResult [1200; 75; 28; 80; 24; 20] 1427; EvBalloons; EvFooter].
Proof.
  rewrite (loaded_model_serves_each_request _ _
    {| ps_fs := None; ps_cache := Some (Some {| model := 2%nat; encoder_temp := None |});
        ps_replay := [] |}
    {| model := 2%nat; encoder_temp := None |} _ eq_refl).
  reflexivity.
Defined.

(** ** X9: a truncated artifact *)

(** A process started with a truncated artifact fails every run at
    [pickle.load]: the exception is not cached, so each run retries the
    load, never trains, never repairs the file and never renders the
    form. *)
Theorem truncated_artifact_fails_every_run {Model}
  (lr_fit : list (list (option cell)) -> list (option cell) -> res Model)
  (lr_predict : Model -> list Z -> res Z)
  (runs : list (SetupEnv * option Request)) :
  run_many lr_fit lr_predict (fresh_process (Some FTruncated)) runs
    = (fresh_process (Some FTruncated), map (fun _ => EvUncaught UnpicklingError) runs).
Proof.
  induction runs as [|[env press] runs IH]; [reflexivity|].
  cbn [run_many].
  assert (Hrs : run_script lr_fit lr_predict (fresh_process (Some FTruncated)) env press
                = (fresh_process (Some FTruncated), [EvUncaught UnpicklingError]))
    by reflexivity.
  rewrite Hrs, IH. reflexivity.
Qed.

(** ** X10: the samples handed to the fit *)

(** A successful fit receives one sample per complete row of the sheet:
    the design matrix and the target vector have that many rows, and
    every sample has the six feature columns. *)
Theorem fit_samples_aligned {Model}
  (lr_fit : list (list (option cell)) -> list (option cell) -> res Model)
  (cy : DataFrame) (d : Data Model)
  (Hfit : fit_frame lr_fit cy = Ok d) :
  exists X y,
    lr_fit X y = Ok (model d) /\
    length X = length (df_rows (dropna cy)) /\
    length y = length X /\
    Forall (fun row => length row = 6%nat) X.
Proof.
  unfold fit_frame in Hfit.
  pose proof (length_encode_temperature LabelEncoder_new (dropna cy)) as [_ Hlen].
  destruct (encode_temperature LabelEncoder_new (dropna cy)) as [LE cy'].
  simpl in Hlen.
  destruct (select cy' feature_cols) as [X|e] eqn:Hsel; [|discriminate]. simpl in Hfit.
  destruct (series cy' target_col) as [y|e] eqn:Hser; [|discriminate]. simpl in Hfit.
  destruct (lr_fit X y) as [LR|e] eqn:Hlr; [|discriminate]. simpl in Hfit.
  injection Hfit as <-.
  unfold select in Hsel. destruct (forallb _ _); [|discriminate].
  injection Hsel as <-.
  unfold series in Hser. destruct (has_column _ _); [|discriminate].
  injection Hser as <-.
  exists (map (fun r => map (cell_of (df_columns cy') r) feature_cols) (df_rows cy')),
         (map (fun r => cell_of (df_columns cy') r target_col) (df_rows cy')).
  split; [exact Hlr|]. rewrite !length_map. split; [exact Hlen|]. split; [reflexivity|].
  apply Forall_forall. intros row Hrow. apply list_elem_of_In, in_map_iff in Hrow as [r [<- _]].
  now rewrite length_map.
Qed.

Lemma fit_samples_aligned_witness :
  exists X y, sample_fit X y = Ok 2%nat /\ length X = 2%nat /\ length y = length X /\
    Forall (fun row => length row = 6%nat) X.
Proof.
  destruct (fit_samples_aligned sample_fit sample_frame
    {| model := 2%nat; encoder_temp := Some {| classes_ := Some ["28"; "30"] |} |}
    ltac:(vm_compute; reflexivity)) as (X & y & H1 & H2 & H3 & H4).
  exists X, y. vm_compute in H2. auto.
Defined.

(** ** X11: codes follow the string order of the labels *)

Definition str_lt (a b : string) : Prop := String.compare a b = Lt.

Lemma string_compare_refl (s : string) : String.compare s s = Eq.
Proof.
  pose proof (String.compare_antisym s s) as H.
  destruct (String.compare s s); simpl in H; congruence.
Qed.

Lemma str_lt_trans (a b c : string) : str_lt a b -> str_lt b c -> str_lt a c.
Proof.
  unfold str_lt. intros Hab Hbc.
  assert (Hle : String.le a c).
  { transitivity b; unfold String.le, String.leb; [rewrite Hab | rewrite Hbc]; exact I. }
  destruct (String.compare a c) eqn:Hac; [| reflexivity |].
  - apply String.compare_eq_iff in Hac. subst c.
    rewrite String.compare_antisym, Hbc in Hab. discriminate.
  - unfold String.le, String.leb in Hle. now rewrite Hac in Hle.
Qed.

Lemma Forall_insert_unique (P : string -> Prop) (s : string) (l : list string) :
  Forall P l -> P s -> Forall P (insert_unique s l).
Proof.
  induction l as [|x l IH]; intros Hl Hs; simpl; [now constructor|].
  inversion Hl as [|? ? Hx Hl']; subst.
  destruct (String.compare s x); constructor; auto.
Qed.

Lemma sorted_insert_unique (s : string) (l : list string) :
  StronglySorted str_lt l -> StronglySorted str_lt (insert_unique s l).
Proof.
  induction l as [|x l IH]; intros Hl; simpl.
  - constructor; constructor.
  - apply StronglySorted_inv in Hl as [Hl' Hx].
    destruct (String.compare s x) eqn:Hc.
    + constructor; [exact Hl'|exact Hx].
    + constructor; [constructor; [exact Hl'|exact Hx]|].
      constructor; [exact Hc|].
      eapply Forall_impl; [exact Hx|]. intros y Hy. exact (str_lt_trans s x y Hc Hy).
    + constructor; [now apply IH|].
      apply Forall_insert_unique; [exact Hx|].
      unfold str_lt. now rewrite String.compare_antisym, Hc.
Qed.

Lemma sorted_np_unique (ys : list string) : StronglySorted str_lt (np_unique ys).
Proof.
  unfold np_unique. induction ys as [|y ys IH]; simpl; [constructor|].
  now apply sorted_insert_unique.
Qed.

Lemma sorted_lookup_lt (l : list string) (i j : nat) (x y : string) :
  StronglySorted str_lt l -> l !! i = Some x -> l !! j = Some y ->
  (i < j)%nat -> str_lt x y.
Proof.
  revert i j. induction l as [|z l IH]; intros i j Hs Hi Hj Hij; [discriminate|].
  apply StronglySorted_inv in Hs as [Hs Hz].
  destruct i as [|i], j as [|j]; simpl in Hi, Hj; try lia.
  - injection Hi as <-. apply lookup_In in Hj.
    rewrite Forall_forall in Hz. apply Hz. now apply list_elem_of_In.
  - apply (IH i j); auto. lia.
Qed.

Lemma index_order (cls : list string) (a b : string) (ia ib : nat)
  (Hs : StronglySorted str_lt cls)
  (Ha : index_of a cls = Some ia) (Hb : index_of b cls = Some ib) :
  (ia < ib)%nat <-> str_lt a b.
Proof.
  apply index_of_lookup in Ha, Hb. split.
  - intros Hlt. exact (sorted_lookup_lt cls ia ib a b Hs Ha Hb Hlt).
  - intros Hab. destruct (Nat.lt_total ia ib) as [Hlt|[Heq|Hgt]]; [exact Hlt| |].
    + subst ib. rewrite Ha in Hb. injection Hb as ->.
      unfold str_lt in Hab. now rewrite string_compare_refl in Hab.
    + pose proof (sorted_lookup_lt cls ib ia b a Hs Hb Ha Hgt) as Hba.
      unfold str_lt in *. rewrite String.compare_antisym, Hba in Hab. discriminate.
Qed.

Lemma final_temp_fitted (ys : list string) (t : Z) (Ht : In (py_str_int t) ys) :
  exists i, index_of (py_str_int t) (np_unique ys) = Some i /\
            final_temp (Some (le_fit_transform ys).1) t = Z.of_nat i.
Proof.
  destruct (In_index_of (py_str_int t) (np_unique ys)) as [i [Hi _]].
  { now apply In_np_unique. }
  exists i. split; [exact Hi|].
  unfold final_temp, le_transform. simpl. now rewrite Hi.
Qed.

(** An encoder fitted on the training labels orders temperature codes
    by the string order of their decimal forms, not by numeric value:
    of two training temperatures, the one whose string is smaller gets
    the smaller code (so 10 is coded below 9). *)
Theorem temperature_codes_follow_string_order (ys : list string) (t1 t2 : Z)
  (H1 : In (py_str_int t1) ys) (H2 : In (py_str_int t2) ys) :
  final_temp (Some (le_fit_transform ys).1) t1
    < final_temp (Some (le_fit_transform ys).1) t2
  <-> String.compare (py_str_int t1) (py_str_int t2) = Lt.
Proof.
  destruct (final_temp_fitted ys t1 H1) as [i1 [Hi1 ->]].
  destruct (final_temp_fitted ys t2 H2) as [i2 [Hi2 ->]].
  rewrite <- (index_order (np_unique ys) _ _ i1 i2 (sorted_np_unique ys) Hi1 Hi2).
  lia.
Qed.

Lemma temperature_codes_follow_string_order_witness :
  final_temp (Some (le_fit_transform ["9"; "10"; "28"]).1) 10
    < final_temp (Some (le_fit_transform ["9"; "10"; "28"]).1) 9.
Proof.
  apply (temperature_codes_follow_string_order ["9"; "10"; "28"] 10 9).
  - right. now left.
  - now left.
  - reflexivity.
Defined.

(** ** C8: rows with a missing value, through pandas' column types *)

Definition res_map {A B} (f : A -> B) (r : res A) : res B :=
  match r with Ok a => Ok (f a) | Err e => Err e end.

(** A sheet as the Excel reader yields it: integral numbers are ints
    (no float cells), every row has one cell per column, and integers lie
    within +/-2^53 (where float64 holds them exactly and prints them as
    the integer followed by ".0"). *)
Definition raw_cell (x : option cell) : bool :=
  match x with
  | Some (CFloat _) => false
  | Some (CNum z) => Z.abs z <? 2 ^ 53
  | _ => true
  end.

Definition raw_sheet_rows (ncols : nat) (rows : list (list (option cell))) : bool :=
  forallb (fun row => Nat.eqb (length row) ncols && forallb raw_cell row) rows.

(** The frame whose rows are [rows] with the float columns [P]. *)
Definition promoted_frame (P : nat -> bool) (cols : list string)
  (rows : list (list (option cell))) : DataFrame :=
  {| df_columns := cols; df_rows := map (promote_row P 0) rows |}.

(** *** Decimal strings *)

Definition is_digit (c : ascii) : bool :=
  (48 <=? N_of_ascii c)%N && (N_of_ascii c <=? 57)%N.

Fixpoint all_digits (s : string) : bool :=
  match s with
  | EmptyString => true
  | String c s' => is_digit c && all_digits s'
  end.

Lemma pretty_N_char_digit (x : N) : is_digit (pretty_N_char x) = true.
Proof. unfold pretty_N_char. repeat case_match; reflexivity. Qed.

Lemma pretty_N_go_digits (x : N) (s : string) :
  all_digits s = true -> all_digits (pretty_N_go x s) = true.
Proof.
  revert s. induction (N.lt_wf_0 x) as [x _ IH]; intros s Hs.
  destruct (decide (x = 0)%N) as [->|Hx]; [now rewrite pretty_N_go_0|].
  rewrite pretty_N_go_step by lia. apply IH.
  - apply N.div_lt; lia.
  - simpl. now rewrite pretty_N_char_digit, Hs.
Qed.

Lemma pretty_N_go_nonempty (x : N) (s : string) :
  s <> EmptyString -> pretty_N_go x s <> EmptyString.
Proof.
  revert s. induction (N.lt_wf_0 x) as [x _ IH]; intros s Hs.
  destruct (decide (x = 0)%N) as [->|Hx]; [now rewrite pretty_N_go_0|].
  rewrite pretty_N_go_step by lia. apply IH; [apply N.div_lt; lia | discriminate].
Qed.

Lemma pretty_N_shape (n : N) :
  all_digits (pretty n) = true /\ pretty n <> EmptyString.
Proof.
  unfold pretty, pretty_N. case_decide as Hn; [split; [reflexivity|discriminate]|].
  split; [now apply pretty_N_go_digits|].
  rewrite pretty_N_go_step by lia. apply pretty_N_go_nonempty. discriminate.
Qed.

(** [str] of an integer: a non-empty run of digits, after a "-" when
    negative. *)
Lemma pretty_Z_shape (z : Z) :
  (all_digits (pretty z) = true /\ pretty z <> EmptyString) \/
  (exists d, pretty z = String "-" d /\ all_digits d = true /\ d <> EmptyString).
Proof.
  destruct z as [|p|p].
  - left. split; [reflexivity|discriminate].
  - left. exact (pretty_N_shape (Npos p)).
  - right. exists (pretty (Npos p)). split; [reflexivity|].
    exact (pretty_N_shape (Npos p)).
Qed.

Lemma ascii_compare_below_digit (a c : ascii) :
  (N_of_ascii a < 48)%N -> is_digit c = true ->
  Ascii.compare a c = Lt /\ Ascii.compare c a = Gt.
Proof.
  unfold is_digit, Ascii.compare. intros Ha Hc.
  apply andb_prop in Hc as [Hc _]. apply N.leb_le in Hc.
  split; [apply N.compare_lt_iff | apply N.compare_gt_iff]; lia.
Qed.

(** Appending ".0" to two digit strings keeps their order. *)
Lemma digits_suffix_compare (a b : string) :
  all_digits a = true -> all_digits b = true ->
  String.compare (String.append a ".0") (String.append b ".0") = String.compare a b.
Proof.
  revert b. induction a as [|c a IH]; intros [|d b] Ha Hb; simpl.
  - reflexivity.
  - apply andb_prop in Hb as [Hd _].
    destruct (ascii_compare_below_digit "." d eq_refl Hd) as [-> _]. reflexivity.
  - apply andb_prop in Ha as [Hc _].
    destruct (ascii_compare_below_digit "." c eq_refl Hc) as [_ ->]. reflexivity.
  - apply andb_prop in Ha as [_ Ha]. apply andb_prop in Hb as [_ Hb].
    destruct (Ascii.compare c d); [apply IH|reflexivity|reflexivity]; assumption.
Qed.

(** The labels of a float column keep the order of the int labels. *)
Lemma float_label_compare (z1 z2 : Z) :
  String.compare (String.append (pretty z1) ".0") (String.append (pretty z2) ".0")
  = String.compare (pretty z1) (pretty z2).
Proof.
  destruct (pretty_Z_shape z1) as [[Hd1 Hn1]|[d1 [E1 [Hd1 Hn1]]]];
  destruct (pretty_Z_shape z2) as [[Hd2 Hn2]|[d2 [E2 [Hd2 Hn2]]]].
  - now apply digits_suffix_compare.
  - rewrite E2. destruct (pretty z1) as [|c s] eqn:E; [contradiction|].
    simpl in Hd1. apply andb_prop in Hd1 as [Hc _]. simpl.
    destruct (ascii_compare_below_digit "-" c eq_refl Hc) as [_ ->]. reflexivity.
  - rewrite E1. destruct (pretty z2) as [|c s] eqn:E; [contradiction|].
    simpl in Hd2. apply andb_prop in Hd2 as [Hc _]. simpl.
    destruct (ascii_compare_below_digit "-" c eq_refl Hc) as [-> _]. reflexivity.
  - rewrite E1, E2. simpl. now apply digits_suffix_compare.
Qed.

(** *** Label encoding under an order-preserving relabelling *)

Lemma string_eqb_compare (a b : string) :
  String.eqb a b = match String.compare a b with Eq => true | _ => false end.
Proof.
  destruct (String.eqb_spec a b) as [->|Hne]; [now rewrite string_compare_refl|].
  destruct (String.compare a b) eqn:E; try reflexivity.
  apply String.compare_eq_iff in E. contradiction.
Qed.

Lemma insert_unique_map (f : string -> string) (s : string) (l : list string) :
  (forall b, In b l -> String.compare (f s) (f b) = String.compare s b) ->
  insert_unique (f s) (map f l) = map f (insert_unique s l).
Proof.
  induction l as [|x l IH]; intros H; [reflexivity|]. simpl.
  rewrite (H x (or_introl eq_refl)).
  destruct (String.compare s x); simpl; [reflexivity|reflexivity|].
  f_equal. apply IH. intros b Hb. apply H. now right.
Qed.

Lemma np_unique_map (f : string -> string) (ys : list string) :
  (forall a b, In a ys -> In b ys -> String.compare (f a) (f b) = String.compare a b) ->
  np_unique (map f ys) = map f (np_unique ys).
Proof.
  induction ys as [|y ys IH]; intros H; [reflexivity|].
  change (np_unique (map f (y :: ys))) with (insert_unique (f y) (np_unique (map f ys))).
  change (np_unique (y :: ys)) with (insert_unique y (np_unique ys)).
  rewrite IH by (intros a b Ha Hb; apply H; now right).
  apply insert_unique_map. intros b Hb. apply H; [now left|].
  right. now apply In_np_unique.
Qed.

Lemma index_of_map (f : string -> string) (a : string) (cls : list string) :
  (forall b, In b cls -> String.compare (f a) (f b) = String.compare a b) ->
  index_of (f a) (map f cls) = index_of a cls.
Proof.
  induction cls as [|x cls IH]; intros H; [reflexivity|]. simpl.
  rewrite !string_eqb_compare, (H x (or_introl eq_refl)).
  destruct (String.compare a x); [reflexivity| |];
    rewrite IH by (intros b Hb; apply H; now right); reflexivity.
Qed.

(** [fit_transform] gives the same codes to labels relabelled by an
    order-preserving map. *)
Lemma le_fit_transform_codes_map (f : string -> string) (ys : list string) :
  (forall a b, In a ys -> In b ys -> String.compare (f a) (f b) = String.compare a b) ->
  (le_fit_transform (map f ys)).2 = (le_fit_transform ys).2.
Proof.
  intros H. unfold le_fit_transform. cbn [snd].
  rewrite np_unique_map by exact H. rewrite map_map.
  apply map_ext_in. intros y Hy.
  rewrite index_of_map; [reflexivity|].
  intros b Hb. apply H; [exact Hy|]. now apply In_np_unique.
Qed.

(** *** Reading the sheet with or without the row *)

Lemma promote_cell_idem (x : option cell) :
  promote_cell (promote_cell x) = promote_cell x.
Proof. now destruct x as [[]|]. Qed.

Lemma map_promote_row (P : nat -> bool) (j : nat) (r : list (option cell)) :
  map promote_cell (promote_row P j r) = map promote_cell r.
Proof.
  revert j. induction r as [|x r IH]; intros j; [reflexivity|]. simpl.
  rewrite IH. destruct (P j); [now rewrite promote_cell_idem|reflexivity].
Qed.

Lemma lookup_promote_row (P : nat -> bool) (j : nat) (r : list (option cell)) (i : nat) :
  promote_row P j r !! i
  = option_map (fun x => if P (j + i)%nat then promote_cell x else x) (r !! i).
Proof.
  revert j i. induction r as [|x r IH]; intros j [|i]; simpl; try reflexivity.
  - now rewrite Nat.add_0_r.
  - rewrite IH. now rewrite Nat.add_succ_r.
Qed.

Lemma row_complete_promote_row (P : nat -> bool) (j : nat) (r : list (option cell)) :
  row_complete (promote_row P j r) = row_complete r.
Proof.
  revert j. induction r as [|x r IH]; intros j; [reflexivity|]. simpl.
  rewrite IH. destruct (P j); [|reflexivity]. now destruct x as [[]|].
Qed.

Lemma filter_complete_promote (P : nat -> bool) (rows : list (list (option cell))) :
  filter (fun r => row_complete r = true) (map (promote_row P 0) rows)
  = map (promote_row P 0) (filter (fun r => row_complete r = true) rows).
Proof.
  induction rows as [|r rows IH]; [reflexivity|]. cbn [map].
  rewrite !filter_cons, row_complete_promote_row.
  case_decide; [cbn [map]; f_equal|]; exact IH.
Qed.

Lemma filter_all_complete (rows : list (list (option cell))) :
  Forall (fun r => row_complete r = true) rows ->
  filter (fun r => row_complete r = true) rows = rows.
Proof.
  induction 1 as [|r rows Hr _ IH]; [reflexivity|].
  rewrite filter_cons. case_decide; [|contradiction]. now f_equal.
Qed.

Lemma dropna_read_frame (sh : DataFrame) :
  dropna (read_frame sh)
  = promoted_frame (float_column (df_rows sh)) (df_columns sh)
      (filter (fun r => row_complete r = true) (df_rows sh)).
Proof.
  unfold dropna, read_frame, promoted_frame. simpl. f_equal.
  apply filter_complete_promote.
Qed.

Lemma filter_insert_row (sh : DataFrame) (k : nat) (r : list (option cell)) :
  In None r ->
  filter (fun r => row_complete r = true) (df_rows (insert_row k r sh))
  = filter (fun r => row_complete r = true) (df_rows sh).
Proof.
  intros Hmiss. unfold insert_row. simpl.
  rewrite filter_app, filter_cons_False.
  - rewrite <- filter_app. now rewrite take_drop.
  - rewrite (row_complete_false r Hmiss). discriminate.
Qed.

Lemma dropna_idem (cy : DataFrame) : dropna (dropna cy) = dropna cy.
Proof.
  unfold dropna. simpl. f_equal. apply filter_all_complete.
  apply Forall_forall. intros r Hr. now apply list_elem_of_filter in Hr as [? _].
Qed.

Lemma fit_frame_dropna {Model}
  (lr_fit : list (list (option cell)) -> list (option cell) -> res Model)
  (cy : DataFrame) :
  fit_frame lr_fit (dropna cy) = fit_frame lr_fit cy.
Proof. unfold fit_frame at 1. now rewrite dropna_idem. Qed.

Lemma existsb_insert {A} (f : A -> bool) (l : list A) (k : nat) (x : A) :
  existsb f (take k l ++ x :: drop k l) = f x || existsb f l.
Proof.
  assert (H : existsb f l = existsb f (take k l) || existsb f (drop k l))
    by (rewrite <- existsb_app; now rewrite take_drop).
  rewrite H, existsb_app. simpl.
  destruct (f x), (existsb f (take k l)), (existsb f (drop k l)); reflexivity.
Qed.

Lemma forallb_insert {A} (f : A -> bool) (l : list A) (k : nat) (x : A) :
  forallb f (take k l ++ x :: drop k l) = f x && forallb f l.
Proof.
  assert (H : forallb f l = forallb f (take k l) && forallb f (drop k l))
    by (rewrite <- forallb_app; now rewrite take_drop).
  rewrite H, forallb_app. simpl.
  destruct (f x), (forallb f (take k l)), (forallb f (drop k l)); reflexivity.
Qed.

(** A column read with a different type once the row is added holds
    only numbers (or missing values) in the other rows. *)
Lemma float_column_insert_numeric (rows : list (list (option cell))) (k : nat)
  (r : list (option cell)) (j : nat) :
  float_column (take k rows ++ r :: drop k rows) j <> float_column rows j ->
  forallb (fun r => is_numeric_or_missing (col_at r j)) rows = true.
Proof.
  unfold float_column. rewrite !existsb_insert, forallb_insert.
  destruct (is_missing (col_at r j)), (existsb (fun r => is_missing (col_at r j)) rows),
    (is_float_cell (col_at r j)), (existsb (fun r => is_float_cell (col_at r j)) rows),
    (is_numeric_or_missing (col_at r j)),
    (forallb (fun r => is_numeric_or_missing (col_at r j)) rows);
    simpl; congruence.
Qed.

(** *** Fitting on the two readings *)

Lemma lookup_map_option {A B} (f : A -> B) (l : list A) (n : nat) :
  map f l !! n = option_map f (l !! n).
Proof.
  revert n. induction l as [|x l IH]; intros [|n]; simpl; try reflexivity. apply IH.
Qed.

Lemma map_list_insert {A B} (f : A -> B) (l : list A) (i : nat) (v : A) :
  map f (<[i := v]> l) = <[i := f v]> (map f l).
Proof.
  revert i. induction l as [|x l IH]; intros [|i]; simpl; try reflexivity.
  now rewrite IH.
Qed.

Lemma cell_of_promote (cols : list string) (row : list (option cell)) (c : string) :
  promote_cell (cell_of cols row c) = cell_of cols (map promote_cell row) c.
Proof.
  unfold cell_of. destruct (index_of c cols); [|reflexivity].
  rewrite lookup_map_option. now destruct (row !! n).
Qed.

Lemma encoded_rows_promote (P : nat -> bool) (i : nat)
  (rows : list (list (option cell))) (cs : list Z) :
  map (map promote_cell)
    (zip_with (fun r c => <[i := Some (CNum c)]> r) (map (promote_row P 0) rows) cs)
  = zip_with (fun r c => <[i := Some (CFloat c)]> r) (map (map promote_cell) rows) cs.
Proof.
  revert cs. induction rows as [|r rows IH]; intros [|c cs]; simpl; try reflexivity.
  rewrite IH, map_list_insert, map_promote_row. reflexivity.
Qed.

Lemma select_rows_promote (cols fs : list string) (E : list (list (option cell))) :
  map (map promote_cell) (map (fun r => map (cell_of cols r) fs) E)
  = map (fun r => map (cell_of cols r) fs) (map (map promote_cell) E).
Proof.
  rewrite !map_map. apply map_ext. intros r. rewrite map_map.
  apply map_ext. apply cell_of_promote.
Qed.

Lemma series_rows_promote (cols : list string) (c : string) (E : list (list (option cell))) :
  map promote_cell (map (fun r => cell_of cols r c) E)
  = map (fun r => cell_of cols r c) (map (map promote_cell) E).
Proof. rewrite !map_map. apply map_ext. intros r. apply cell_of_promote. Qed.

Lemma cell_of_promote_row (P : nat -> bool) (cols : list string) (r : list (option cell))
  (c : string) (i : nat) :
  index_of c cols = Some i ->
  cell_of cols (promote_row P 0 r) c
  = if P i then promote_cell (col_at r i) else col_at r i.
Proof.
  intros Hi. unfold cell_of, col_at. rewrite Hi, lookup_promote_row.
  destruct (r !! i); simpl; [reflexivity|]. now destruct (P i).
Qed.

Lemma complete_numeric_cell (r : list (option cell)) (i : nat) :
  row_complete r = true -> Forall (fun x => is_float_cell x = false) r ->
  (i < length r)%nat -> is_numeric_or_missing (col_at r i) = true ->
  exists z, col_at r i = Some (CNum z).
Proof.
  intros Hc Hf Hi Hn. unfold col_at in *.
  destruct (lookup_lt_is_Some_2 r i Hi) as [x Hx]. rewrite Hx in *.
  apply lookup_In in Hx.
  assert (Hs : match x with Some _ => true | None => false end = true)
    by (unfold row_complete in Hc; rewrite forallb_forall in Hc; now apply Hc).
  rewrite Forall_forall in Hf. pose proof (Hf x (proj2 (list_elem_of_In _ _) Hx)) as Hfx.
  destruct x as [[z|z|s]|]; try discriminate. now exists z.
Qed.

(** The codes of an int column and of the same column read as float. *)
Lemma codes_int_float (rows : list (list (option cell))) (i : nat) :
  (forall r, In r rows -> exists z, col_at r i = Some (CNum z)) ->
  (le_fit_transform (map (fun r => cell_str (promote_cell (col_at r i))) rows)).2
  = (le_fit_transform (map (fun r => cell_str (col_at r i)) rows)).2.
Proof.
  intros H.
  assert (Hmap : map (fun r => cell_str (promote_cell (col_at r i))) rows
    = map (fun s => String.append s ".0") (map (fun r => cell_str (col_at r i)) rows)).
  { rewrite map_map. apply map_ext_in. intros r Hr.
    destruct (H r Hr) as [z ->]. reflexivity. }
  rewrite Hmap. apply le_fit_transform_codes_map.
  intros a b Ha Hb. apply in_map_iff in Ha as [ra [<- Ha]].
  apply in_map_iff in Hb as [rb [<- Hb]].
  destruct (H ra Ha) as [za ->]. destruct (H rb Hb) as [zb ->].
  apply float_label_compare.
Qed.

(** Two readings of the same complete rows that differ only in which
    int columns were read as float give the same regression. *)
Lemma fit_promoted_frames {Model}
  (lr_fit : list (list (option cell)) -> list (option cell) -> res Model)
  (Hfloat : forall X y, lr_fit (map (map promote_cell) X) (map promote_cell y) = lr_fit X y)
  (cols : list string) (rows : list (list (option cell))) (P1 P2 : nat -> bool)
  (Hrows : Forall (fun r => row_complete r = true /\ length r = length cols /\
                            Forall (fun x => is_float_cell x = false) r) rows)
  (Hdiff : forall j, P1 j <> P2 j ->
           Forall (fun r => is_numeric_or_missing (col_at r j) = true) rows) :
  res_map model (fit_frame lr_fit (promoted_frame P1 cols rows))
  = res_map model (fit_frame lr_fit (promoted_frame P2 cols rows)).
Proof.
  destruct (has_column cols temp_col) eqn:Hhas.
  2:{ rewrite !fit_frame_no_temperature by exact Hhas. reflexivity. }
  destruct (has_column_index_of _ _ Hhas) as [i Hi].
  assert (Hilen : (i < length cols)%nat)
    by (apply lookup_lt_Some with temp_col; now apply index_of_lookup).
  assert (Hcomplete : forall P, dropna (promoted_frame P cols rows) = promoted_frame P cols rows).
  { intros P. unfold dropna, promoted_frame. simpl. f_equal.
    rewrite filter_complete_promote, filter_all_complete; [reflexivity|].
    eapply Forall_impl; [exact Hrows|]. now intros r [? _]. }
  assert (Hlabels : forall P, map (fun r => cell_str (cell_of cols r temp_col))
                                  (map (promote_row P 0) rows)
    = map (fun r => cell_str (if P i then promote_cell (col_at r i) else col_at r i)) rows).
  { intros P. rewrite map_map. apply map_ext. intros r.
    now rewrite (cell_of_promote_row P cols r temp_col i Hi). }
  assert (Hcodes : (le_fit_transform (map (fun r => cell_str (cell_of cols r temp_col))
                                           (map (promote_row P1 0) rows))).2
                 = (le_fit_transform (map (fun r => cell_str (cell_of cols r temp_col))
                                           (map (promote_row P2 0) rows))).2).
  { rewrite !Hlabels.
    destruct (bool_dec (P1 i) (P2 i)) as [Heq|Hne]; [now rewrite Heq|].
    assert (Hnum : forall r, In r rows -> exists z, col_at r i = Some (CNum z)).
    { intros r Hr. pose proof (Hdiff i Hne) as Hd. rewrite Forall_forall in Hd, Hrows.
      apply list_elem_of_In in Hr.
      destruct (Hrows r Hr) as [Hc [Hl Hf]].
      apply complete_numeric_cell; [exact Hc|exact Hf|lia|now apply Hd]. }
    destruct (P1 i), (P2 i); try congruence.
    - apply codes_int_float. exact Hnum.
    - symmetry. apply codes_int_float. exact Hnum. }
  unfold fit_frame. rewrite !Hcomplete.
  unfold encode_temperature, promoted_frame. cbn [df_columns df_rows].
  rewrite Hhas, Hi.
  destruct (le_fit_transform (map (fun r => cell_str (cell_of cols r temp_col))
                                  (map (promote_row P1 0) rows))) as [LE1 c1] eqn:E1.
  destruct (le_fit_transform (map (fun r => cell_str (cell_of cols r temp_col))
                                  (map (promote_row P2 0) rows))) as [LE2 c2] eqn:E2.
  cbn [snd] in Hcodes. subst c2.
  unfold select, series. cbn [df_columns df_rows].
  destruct (forallb (has_column cols) feature_cols); [|reflexivity].
  destruct (has_column cols target_col); [|reflexivity]. cbn [res_bind].
  rewrite <- (Hfloat (map (fun r => map (cell_of cols r) feature_cols)
     (zip_with (fun r c => <[i := Some (CNum c)]> r) (map (promote_row P1 0) rows) c1))).
  rewrite <- (Hfloat (map (fun r => map (cell_of cols r) feature_cols)
     (zip_with (fun r c => <[i := Some (CNum c)]> r) (map (promote_row P2 0) rows) c1))).
  rewrite !select_rows_promote, !series_rows_promote, !encoded_rows_promote.
  destruct (lr_fit _ _); reflexivity.
Qed.

(** C8: a row with a missing value in any column, inserted anywhere in
    a sheet, is removed by [dropna]; what it can still change is the
    type pandas gives to the columns where it is missing (an int column
    becomes float), and that changes neither the samples' values nor
    the order of the "Temperatue" labels: the regression fitted on the
    sheet with the row is the one fitted without it.  Assumed: the
    sheet is as the Excel reader yields it, and [LinearRegression.fit]
    depends on its input's values only, as it converts it to float64. *)
Theorem missing_value_row_same_model {Model}
  (lr_fit : list (list (option cell)) -> list (option cell) -> res Model)
  (Hfloat : forall X y, lr_fit (map (map promote_cell) X) (map promote_cell y) = lr_fit X y)
  (sh : DataFrame) (k : nat) (r : list (option cell))
  (Hmiss : In None r)
  (Hraw : raw_sheet_rows (length (df_columns sh)) (r :: df_rows sh) = true) :
  map (map promote_cell) (df_rows (dropna (read_frame (insert_row k r sh))))
    = map (map promote_cell) (df_rows (dropna (read_frame sh))) /\
  res_map model (fit_frame lr_fit (read_frame (insert_row k r sh)))
    = res_map model (fit_frame lr_fit (read_frame sh)).
Proof.
  set (rows := filter (fun r => row_complete r = true) (df_rows sh)).
  assert (Hd2 : dropna (read_frame (insert_row k r sh))
    = promoted_frame (float_column (take k (df_rows sh) ++ r :: drop k (df_rows sh)))
        (df_columns sh) rows).
  { rewrite dropna_read_frame. unfold rows. now rewrite filter_insert_row. }
  assert (Hd1 : dropna (read_frame sh)
    = promoted_frame (float_column (df_rows sh)) (df_columns sh) rows)
    by apply dropna_read_frame.
  split.
  { rewrite Hd1, Hd2. unfold promoted_frame. cbn [df_rows].
    rewrite !map_map. apply map_ext. intros row. now rewrite !map_promote_row. }
  rewrite <- (fit_frame_dropna lr_fit (read_frame (insert_row k r sh))),
          <- (fit_frame_dropna lr_fit (read_frame sh)), Hd1, Hd2.
  apply fit_promoted_frames; [exact Hfloat| |].
  - apply Forall_forall. intros row Hrow.
    apply list_elem_of_filter in Hrow as [Hc Hrow].
    unfold raw_sheet_rows in Hraw. cbn [forallb] in Hraw.
    apply andb_prop in Hraw as [_ Hraw]. rewrite forallb_forall in Hraw.
    apply list_elem_of_In in Hrow.
    destruct (andb_prop _ _ (Hraw row Hrow)) as [Hl Hf]. apply Nat.eqb_eq in Hl.
    split; [exact Hc|]. split; [exact Hl|].
    apply Forall_forall. intros x Hx. apply list_elem_of_In in Hx.
    rewrite forallb_forall in Hf. specialize (Hf x Hx).
    destruct x as [[]|]; [reflexivity|discriminate|reflexivity|reflexivity].
  - intros j Hj. apply float_column_insert_numeric in Hj.
    apply Forall_forall. intros row Hrow.
    apply list_elem_of_filter in Hrow as [_ Hrow].
    rewrite forallb_forall in Hj. apply Hj. now apply list_elem_of_In.
Qed.

(** A fitting procedure for concrete runs whose result depends on the
    values it is given: the sum of the features and targets. *)
Definition cell_value (x : option cell) : Z :=
  match x with Some (CNum z) | Some (CFloat z) => z | _ => 0 end.

Definition sum_fit (X : list (list (option cell))) (y : list (option cell)) : res Z :=
  match X with
  | [] => Err FitError
  | _ => Ok (fold_right Z.add 0 (map cell_value (concat X ++ y)))
  end.

Lemma sum_fit_float (X : list (list (option cell))) (y : list (option cell)) :
  sum_fit (map (map promote_cell) X) (map promote_cell y) = sum_fit X y.
Proof.
  assert (Hv : forall l, map cell_value (map promote_cell l) = map cell_value l).
  { intros l. rewrite map_map. apply map_ext. now intros [[]|]. }
  destruct X as [|row X]; [reflexivity|].
  transitivity (Ok (fold_right Z.add 0 (map cell_value
    (concat (map (map promote_cell) (row :: X)) ++ map promote_cell y))) : res Z);
    [reflexivity|].
  rewrite <- concat_map, <- map_app, Hv. reflexivity.
Qed.

(** The sample sheet with a third row whose temperature is missing. *)
Definition missing_temp_row : list (option cell) :=
  [Some (CNum 1000); Some (CNum 50); None; Some (CNum 60);
   Some (CNum 22); Some (CNum 15); Some (CNum 8)].

Lemma missing_value_row_same_model_witness :
  res_map model (fit_frame sum_fit (read_frame (insert_row 1 missing_temp_row sample_frame)))
    = Ok 2681 /\
  res_map encoder_temp (fit_frame sum_fit (read_frame (insert_row 1 missing_temp_row sample_frame)))
    = Ok (Some {| classes_ := Some ["28.0"; "30.0"] |}) /\
  res_map encoder_temp (fit_frame sum_fit (read_frame sample_frame))
    = Ok (Some {| classes_ := Some ["28"; "30"] |}).
Proof.
  split; [|split; vm_compute; reflexivity].
  rewrite (proj2 (missing_value_row_same_model sum_fit sum_fit_float sample_frame 1
    missing_temp_row ltac:(simpl; tauto) ltac:(vm_compute; reflexivity))).
  vm_compute. reflexivity.
Defined.

(** ** X12: a "Temperatue" column read as float *)

Lemma all_digits_app (a b : string) :
  all_digits (String.append a b) = all_digits a && all_digits b.
Proof.
  induction a as [|c a IH]; [reflexivity|]. simpl. rewrite IH. apply andb_assoc.
Qed.

(** [str] of an integer never ends in ".0" and is never "nan". *)
Lemma pretty_not_float_label (t : Z) (s : string) :
  pretty t <> String.append s ".0" /\ pretty t <> "nan".
Proof.
  assert (Hs : all_digits (String.append s ".0") = false)
    by (rewrite all_digits_app; simpl; apply andb_false_r).
  destruct (pretty_Z_shape t) as [[Hd _]|[d [Ed [Hd _]]]].
  - split; intros E; rewrite E in Hd; [congruence|discriminate].
  - rewrite Ed. split; [|discriminate]. intros E.
    destruct s as [|c s]; [discriminate|]. simpl in E. injection E as _ E.
    rewrite E, all_digits_app in Hd. simpl in Hd.
    rewrite andb_false_r in Hd. discriminate.
Qed.

(** When pandas reads the sheet's "Temperatue" column as float (it holds
    a missing value and otherwise only numbers), the fitted encoder's
    labels are strings such as "28.0" (or "nan"), while inference looks
    up [str(int(temp))], which is never one of them: every request gets
    the fallback code 0 as its temperature feature, whatever the input,
    including the temperatures of the training rows. *)
Theorem float_temperature_column_codes_zero {Model}
  (lr_fit : list (list (option cell)) -> list (option cell) -> res Model)
  (sh : DataFrame) (d : Data Model) (i : nat)
  (Hi : index_of temp_col (df_columns sh) = Some i)
  (Hflt : float_column (df_rows sh) i = true)
  (Hfit : fit_frame lr_fit (read_frame sh) = Ok d) :
  forall t, final_temp (encoder_temp d) t = 0.
Proof.
  intros t. rewrite (fit_frame_encoder_classes lr_fit _ d Hfit).
  unfold final_temp, le_transform. cbn [classes_ fold_right].
  destruct (index_of (py_str_int t) _) as [j|] eqn:E; [|reflexivity].
  exfalso. apply index_of_Some_In, In_np_unique, in_map_iff in E as [row [Hy Hrow]].
  rewrite dropna_read_frame in Hrow. unfold promoted_frame in Hrow.
  unfold read_frame in Hy. cbn [df_rows df_columns] in Hrow, Hy.
  apply in_map_iff in Hrow as [r0 [<- Hr0]].
  apply list_elem_of_In, list_elem_of_filter in Hr0 as [_ Hr0].
  apply list_elem_of_In in Hr0.
  rewrite (cell_of_promote_row _ _ r0 temp_col i Hi), Hflt in Hy.
  unfold float_column in Hflt. apply andb_prop in Hflt as [_ Hnum].
  rewrite forallb_forall in Hnum. specialize (Hnum r0 Hr0).
  unfold py_str_int in Hy.
  destruct (col_at r0 i) as [[z|z|s]|]; simpl in Hy; try discriminate;
    try (apply (proj1 (pretty_not_float_label t (pretty z))); now symmetry).
  apply (proj2 (pretty_not_float_label t "")). now symmetry.
Qed.

Lemma float_temperature_column_codes_zero_witness :
  final_temp (Some {| classes_ := Some ["28.0"; "30.0"] |}) 28 = 0.
Proof.
  exact (float_temperature_column_codes_zero sample_fit
    (insert_row 1 missing_temp_row sample_frame)
    {| model := 2%nat; encoder_temp := Some {| classes_ := Some ["28.0"; "30.0"] |} |}
    2 eq_refl ltac:(vm_compute; reflexivity) ltac:(vm_compute; reflexivity) 28).
Defined.
